(** * Runtime Configurator variables: a shallow embedding of
      [google/cloud/runtimeconfig/variable.py]

    The class [Variable] of the Python module is embedded as a record
    together with one monadic action per method or property.  An action
    threads the object and the list of requests sent to the remote
    connection, and ends either with a value or with a raised exception;
    mutations made before an exception is raised stay visible, as in
    Python.

    Layout: values and exceptions, the [base64] functions of the Python
    standard library that the class calls, the monad, the class itself,
    then the theorems.  The property [update_time] is left out: it parses
    timestamps with [datetime], and nothing below depends on it. *)

From Stdlib Require Import ZArith Strings.Byte Strings.String Strings.Ascii Lia.
From stdpp Require Import base option gmap strings list fin_maps.

Local Open Scope string_scope.
Local Open Scope Z_scope.

(** ** Python values and exceptions *)

(** The values that can sit in the property mapping: what a decoded JSON
    body holds at its leaves, and [bytes], which a caller may store through
    the [value] setter.  A [str] is represented by its UTF-8 bytes, so an
    ASCII [str] and the [bytes] with the same characters have the same
    underlying list. *)
Inductive pyval : Type :=
| PyNone
| PyBool (b : bool)
| PyInt (n : Z)
| PyStr (s : string)
| PyBytes (b : list byte).

(** A [dict] with [str] keys, as the JSON bodies and [_properties] are. *)
Abbreviation dict := (gmap string pyval).

(** [k in d] *)
Definition dict_in (k : string) (d : dict) : bool :=
  match d !! k with
  | Some _ => true
  | None => false
  end.

(** [d.get(k)]: [None] when the key is missing. *)
Definition dict_get (k : string) (d : dict) : pyval :=
  match d !! k with
  | Some x => x
  | None => PyNone
  end.

(** The exceptions that the module raises or lets through.
    [Error] is [google.cloud.runtimeconfig.exceptions.Error]; [NotFound] and
    [Conflict] come from [google.cloud.exceptions]; [BinasciiError] is
    [binascii.Error]; [RemoteFailure] stands for any other failure of the
    connection (authentication, 5xx, network). *)
Inductive exn : Type :=
| Error (msg : string)
| ValueError (msg : string)
| TypeError
| BinasciiError
| NotFound
| Conflict
| RemoteFailure (status : Z).

(** How a call ends. *)
Inductive outcome (A : Type) : Type :=
| Return (a : A)
| Raise (e : exn).
Arguments Return {A} a.
Arguments Raise {A} e.

(** ** The standard library's [base64]

    [base64.b64encode] and [base64.b64decode] are not code of the
    repository; they are modelled after RFC 4648 and CPython's [binascii]
    ([b2a_base64] with [newline=False], and the lenient, non-strict
    [a2b_base64], which skips characters outside the alphabet). *)
Module base64.

Definition Z_of_byte (b : byte) : Z := Z.of_N (Byte.to_N b).

Definition byte_of_Z (z : Z) : byte :=
  match Byte.of_N (Z.to_N z) with
  | Some b => b
  | None => x00
  end.

Definition table_b2a_base64 : list byte :=
  list_byte_of_string
    "ABCDEFGHIJKLMNOPQRSTUVWXYZabcdefghijklmnopqrstuvwxyz0123456789+/".

Definition BASE64_PAD : byte := "="%byte.

(** The character of a 6-bit group. *)
Definition b2a (n : Z) : byte :=
  match table_b2a_base64 !! Z.to_nat n with
  | Some c => c
  | None => BASE64_PAD
  end.

Fixpoint index_of (c : byte) (l : list byte) (i : Z) : option Z :=
  match l with
  | [] => None
  | x :: l' => if Byte.eqb x c then Some i else index_of c l' (i + 1)
  end.

(** The 6-bit group of a character; [None] outside the alphabet (where
    CPython's table holds a value above 63). *)
Definition table_a2b_base64 (c : byte) : option Z :=
  index_of c table_b2a_base64 0.

(** The four 6-bit groups of three bytes. *)
Definition sextet1 (a : Z) : Z := Z.shiftr a 2.
Definition sextet2 (a b : Z) : Z :=
  Z.lor (Z.shiftl (Z.land a 3) 4) (Z.shiftr b 4).
Definition sextet3 (b c : Z) : Z :=
  Z.lor (Z.shiftl (Z.land b 15) 2) (Z.shiftr c 6).
Definition sextet4 (c : Z) : Z := Z.land c 63.

(** [binascii.b2a_base64(data, newline=False)] *)
Fixpoint b2a_base64 (bin_data : list byte) : list byte :=
  match bin_data with
  | [] => []
  | [x] =>
      let a := Z_of_byte x in
      [b2a (sextet1 a); b2a (sextet2 a 0); BASE64_PAD; BASE64_PAD]
  | [x; y] =>
      let a := Z_of_byte x in
      let b := Z_of_byte y in
      [b2a (sextet1 a); b2a (sextet2 a b); b2a (sextet3 b 0); BASE64_PAD]
  | x :: y :: z :: rest =>
      let a := Z_of_byte x in
      let b := Z_of_byte y in
      let c := Z_of_byte z in
      b2a (sextet1 a) :: b2a (sextet2 a b) :: b2a (sextet3 b c)
        :: b2a (sextet4 c) :: b2a_base64 rest
  end.

(** The loop of [binascii.a2b_base64] outside strict mode.  [quad_pos]
    counts the characters of the current group of four, [leftchar] holds
    the bits not yet written, [pads] the padding characters seen in a
    row; a byte is truncated to 8 bits when it is stored. *)
Fixpoint a2b_loop (ascii_data : list byte) (quad_pos leftchar pads : Z)
    (bin_data : list byte) : outcome (list byte) :=
  match ascii_data with
  | [] =>
      if quad_pos =? 0 then Return bin_data else Raise BinasciiError
  | this_ch :: rest =>
      if Byte.eqb this_ch BASE64_PAD then
        if 2 <=? quad_pos then
          if 4 <=? quad_pos + (pads + 1) then Return bin_data
          else a2b_loop rest quad_pos leftchar (pads + 1) bin_data
        else a2b_loop rest quad_pos leftchar pads bin_data
      else
        match table_a2b_base64 this_ch with
        | None => a2b_loop rest quad_pos leftchar pads bin_data
        | Some d =>
            if quad_pos =? 0 then a2b_loop rest 1 d 0 bin_data
            else if quad_pos =? 1 then
              a2b_loop rest 2 (Z.land d 15) 0
                (bin_data ++
                 [byte_of_Z (Z.land (Z.lor (Z.shiftl leftchar 2) (Z.shiftr d 4)) 255)])
            else if quad_pos =? 2 then
              a2b_loop rest 3 (Z.land d 3) 0
                (bin_data ++
                 [byte_of_Z (Z.land (Z.lor (Z.shiftl leftchar 4) (Z.shiftr d 2)) 255)])
            else
              a2b_loop rest 0 0 0
                (bin_data ++
                 [byte_of_Z (Z.land (Z.lor (Z.shiftl leftchar 6) d) 255)])
        end
  end.

Definition a2b_base64 (data : list byte) : outcome (list byte) :=
  a2b_loop data 0 0 0 [].

(** [str.encode("ascii")] on the UTF-8 representation: every byte must
    be below 128. *)
Definition is_ascii (s : list byte) : bool :=
  forallb (fun c => Z_of_byte c <? 128) s.

(** [base64.b64encode(s)]: [s] must be bytes-like. *)
Definition b64encode (s : pyval) : outcome (list byte) :=
  match s with
  | PyBytes b => Return (b2a_base64 b)
  | _ => Raise TypeError
  end.

(** [base64.b64decode(s)]: bytes, or an ASCII [str]. *)
Definition b64decode (s : pyval) : outcome (list byte) :=
  match s with
  | PyBytes b => a2b_base64 b
  | PyStr t =>
      let b := list_byte_of_string t in
      if is_ascii b then a2b_base64 b
      else Raise (ValueError "string argument should contain only ASCII characters")
  | _ => Raise TypeError
  end.

(** [bytes.decode("utf-8")], on the representation of [str] by its UTF-8
    bytes.  It is applied to the encoder's output only, which is ASCII. *)
Definition decode_utf8 (b : list byte) : string := string_of_list_byte b.

(** *** Checks for the proofs about the two tables

    The facts about 6-bit groups are settled by running these checks over
    every byte or pair of bytes. *)

(** Every byte, in order. *)
Definition all_bytes : list byte :=
  map (λ n, byte_of_Z (Z.of_nat n)) (seq 0 256).

(** The character of [s] is not the padding and decodes back to [s]. *)
Definition char_ok (s : Z) : bool :=
  negb (Byte.eqb (b2a s) BASE64_PAD)
  && match table_a2b_base64 (b2a s) with
     | Some d => d =? s
     | None => false
     end.

(** [s] is a 6-bit group. *)
Definition sextet_range (s : Z) : bool := (0 <=? s) && (s <? 64).

(** What decoding needs of two neighbouring bytes, in each of the three
    positions that they can take in a group. *)
Definition chunk_ok (x y : byte) : bool :=
  let a := Z_of_byte x in
  let b := Z_of_byte y in
  sextet_range (sextet1 a) && sextet_range (sextet2 a b)
  && sextet_range (sextet3 a b) && sextet_range (sextet4 a)
  && Byte.eqb (byte_of_Z (Z.land (Z.lor (Z.shiftl (sextet1 a) 2) (Z.shiftr (sextet2 a b) 4)) 255)) x
  && (Z.land (sextet2 a b) 15 =? Z.shiftr b 4)
  && Byte.eqb (byte_of_Z (Z.land (Z.lor (Z.shiftl (Z.shiftr a 4) 4) (Z.shiftr (sextet3 a b) 2)) 255)) x
  && (Z.land (sextet3 a b) 3 =? Z.shiftr b 6)
  && Byte.eqb (byte_of_Z (Z.land (Z.lor (Z.shiftl (Z.shiftr a 6) 6) (sextet4 a)) 255)) x.

End base64.

(** ** The remote connection and the owning config

    Both are collaborators outside the module.  A connection answers a
    request with a decoded JSON body or raises; its answer may depend on
    the requests sent before (a stub that replays canned responses, a
    server that remembers what was created). *)

Inductive http_method : Type := GET | POST | PUT.

Module Request.
Record t : Type := make {
  method : http_method;
  path : string;
  data : option dict;
  query_params : option dict
}.
End Request.

Definition Connection : Type :=
  list Request.t → Request.t → outcome dict.

Record Client : Type := { _connection : Connection }.

Module Config.
Record t : Type := make {
  full_name : string;
  path : string;
  client : Client
}.
End Config.

(** The helper module [google.cloud.runtimeconfig._helpers] is imported but
    is not part of the sources at hand: the class is embedded over any
    implementation of the function it takes from there. *)
Class Helpers : Type := {
  variable_name_from_full_name : pyval → outcome string
}.

(** ** The object and the monad of its methods *)

(** The attributes that [__init__] sets.  ([Variable] is a reserved word,
    hence the lower case.)  [name] is [None] or a [str]. *)
Record variable : Type := mkVariable {
  name : option string;
  config : Config.t;
  _properties : dict
}.

(** [Variable(name, config)] *)
Definition __init__ (name : option string) (config : Config.t) : variable :=
  {| name := name; config := config; _properties := ∅ |}.

(** What a method can read and change: the object, and the requests that
    have gone out to the connection so far, oldest first. *)
Record Heap : Type := mkHeap {
  self : variable;
  sent : list Request.t
}.

Definition M (A : Type) : Type := Heap → outcome A * Heap.

Definition run {A} (m : M A) (h : Heap) : outcome A * Heap := m h.

Global Instance M_ret : MRet M := λ A a h, (Return a, h).

Global Instance M_bind : MBind M := λ A B f m h,
  match m h with
  | (Return a, h') => f a h'
  | (Raise e, h') => (Raise e, h')
  end.

Definition raise {A} (e : exn) : M A := λ h, (Raise e, h).

(** A pure library call that may raise. *)
Definition lift {A} (o : outcome A) : M A := λ h, (o, h).

Definition get_self : M variable := λ h, (Return (self h), h).

Definition set_name (n : option string) : M unit := λ h,
  (Return (),
   {| self := {| name := n; config := config (self h);
                 _properties := _properties (self h) |};
      sent := sent h |}).

Definition set_properties (d : dict) : M unit := λ h,
  (Return (),
   {| self := {| name := name (self h); config := config (self h);
                 _properties := d |};
      sent := sent h |}).

(** [try: m  except E: ...] for the exceptions [E] that [catches] accepts:
    [None] when one was caught, the value of [m] otherwise; any other
    exception goes on to the caller. *)
Definition try_except {A} (m : M A) (catches : exn → bool) : M (option A) :=
  λ h,
    match m h with
    | (Return a, h') => (Return (Some a), h')
    | (Raise e, h') => if catches e then (Return None, h') else (Raise e, h')
    end.

Definition is_NotFound (e : exn) : bool :=
  match e with NotFound => true | _ => false end.

Definition is_Conflict (e : exn) : bool :=
  match e with Conflict => true | _ => false end.

(** [client._connection.api_request(method=..., path=..., data=...,
    query_params=...)]: the request is recorded whatever the answer. *)
Definition api_request (client : Client) (method : http_method)
    (path : string) (data query_params : option dict) : M dict := λ h,
  let r := Request.make method path data query_params in
  (_connection client (sent h) r,
   {| self := self h; sent := sent h ++ [r] |}).

(** [not x] for an attribute that is [None] or a [str]. *)
Definition falsy (x : option string) : bool :=
  match x with
  | None => true
  | Some s => if decide (s = "") then true else false
  end.

(** ** The class [Variable] *)

Definition STATE_UNSPECIFIED : string := "VARIABLE_STATE_UNSPECIFIED".
Definition STATE_UPDATED : string := "UPDATED".
Definition STATE_DELETED : string := "DELETED".

(** Property [full_name]. *)
Definition full_name : M string :=
  v ← get_self;
  if falsy (name v) then raise (ValueError "Missing variable name.")
  else mret (Config.full_name (config v) +:+ "/variables/" +:+ default "" (name v)).

(** Property [path]. *)
Definition path : M string :=
  fn ← full_name;
  mret ("/" +:+ fn).

(** Property [client]. *)
Definition client : M Client :=
  v ← get_self;
  mret (Config.client (config v)).

(** Property [text], getter. *)
Definition text : M pyval :=
  v ← get_self;
  mret (dict_get "text" (_properties v)).

(** Property [text], setter. *)
Definition text_setter (value : pyval) : M unit :=
  v ← get_self;
  if dict_in "value" (_properties v)
  then raise (Error "Value and text are mutually exclusive.")
  else set_properties (<["text" := value]> (_properties v)).

(** Property [value], getter. *)
Definition value : M pyval :=
  v ← get_self;
  let value := dict_get "value" (_properties v) in
  match value with
  | PyNone => mret value
  | _ => b ← lift (base64.b64decode value); mret (PyBytes b)
  end.

(** Property [value], setter. *)
Definition value_setter (value : pyval) : M unit :=
  v ← get_self;
  if dict_in "text" (_properties v)
  then raise (Error "Value and text are mutually exclusive.")
  else set_properties (<["value" := value]> (_properties v)).

(** Property [state]. *)
Definition state : M pyval :=
  v ← get_self;
  mret (default (PyStr STATE_UNSPECIFIED) (_properties v !! "state")).

Definition _require_client (c : option Client) : M Client :=
  match c with
  | None => client
  | Some c => mret c
  end.

(** [_set_properties(resource)]: the mapping is cleared first; the name is
    popped from a copy of the resource and parsed; what is left of the copy
    is merged into the (now empty) mapping, its keys winning. *)
Definition _set_properties `{Helpers} (resource : dict) : M unit :=
  set_properties ∅;;
  let cleaned := resource in
  cleaned ←
    match cleaned !! "name" with
    | Some full =>
        let cleaned := delete "name" cleaned in
        n ← lift (variable_name_from_full_name full);
        set_name (Some n);;
        mret cleaned
    | None => mret cleaned
    end;
  v ← get_self;
  set_properties (cleaned ∪ _properties v).

(** [_get_payload()] *)
Definition _get_payload : M dict :=
  fn ← full_name;
  let data : dict := {[ "name" := PyStr fn ]} in
  v ← get_self;
  match _properties v !! "text" with
  | Some t => mret (<["text" := t]> data)
  | None =>
      match _properties v !! "value" with
      | Some value =>
          b ← lift (base64.b64encode value);
          mret (<["value" := PyStr (base64.decode_utf8 b)]> data)
      | None => raise (Error "No text or value set.")
      end
  end.

(** [create(client=None)] *)
Definition create `{Helpers} (c : option Client) : M bool :=
  c ← _require_client c;
  v ← get_self;
  let path := Config.path (config v) +:+ "/variables" in
  data ← _get_payload;
  r ← try_except (api_request c POST path (Some data) None) is_Conflict;
  match r with
  | None => mret false
  | Some resp => _set_properties resp;; mret true
  end.

(** [update(client=None)] *)
Definition update `{Helpers} (c : option Client) : M bool :=
  c ← _require_client c;
  data ← _get_payload;
  r ← try_except (p ← path; api_request c PUT p (Some data) None) is_NotFound;
  match r with
  | None => mret false
  | Some resp => _set_properties resp;; mret true
  end.

(** [exists(client=None)] ([exists] is a reserved word). *)
Definition exists_ (c : option Client) : M bool :=
  c ← _require_client c;
  r ← try_except
        (let query_params : dict := {[ "fields" := PyStr "name" ]} in
         p ← path;
         api_request c GET p None (Some query_params);;
         mret true)
        is_NotFound;
  match r with
  | None => mret false
  | Some b => mret b
  end.

(** [reload(client=None)] *)
Definition reload `{Helpers} (c : option Client) : M unit :=
  c ← _require_client c;
  p ← path;
  resp ← api_request c GET p None None;
  _set_properties resp.

(** [Variable.from_api_repr(resource, config)] *)
Definition from_api_repr `{Helpers} (resource : dict) (config : Config.t)
    : outcome variable :=
  match variable_name_from_full_name (dict_get "name" resource) with
  | Raise e => Raise e
  | Return name =>
      let variable := __init__ (Some name) config in
      match run (_set_properties resource) (mkHeap variable []) with
      | (Return _, h) => Return (self h)
      | (Raise e, _) => Raise e
      end
  end.

(** ** Sequences of operations on one object *)

(** Both payload keys at once. *)
Definition has_both (d : dict) : bool :=
  dict_in "text" d && dict_in "value" d.

(** What a caller can do to a variable it holds. *)
Inductive op : Type :=
| SetText (t : pyval)
| SetValue (b : pyval)
| Absorb (resource : dict)
| Create (c : option Client)
| Update (c : option Client)
| Exists (c : option Client)
| Reload (c : option Client).

Definition perform `{Helpers} (o : op) : M unit :=
  match o with
  | SetText t => text_setter t
  | SetValue b => value_setter b
  | Absorb resource => _set_properties resource
  | Create c => create c;; mret ()
  | Update c => update c;; mret ()
  | Exists c => exists_ c;; mret ()
  | Reload c => reload c
  end.

(** The caller goes on after an operation whether it returned or raised. *)
Definition after `{Helpers} (h : Heap) (o : op) : Heap :=
  (run (perform o) h).2.

Definition run_ops `{Helpers} (ops : list op) (h : Heap) : Heap :=
  foldl after h ops.

(** The client an operation talks to. *)
Definition client_of (cfg : Config.t) (c : option Client) : Client :=
  match c with
  | None => Config.client cfg
  | Some c => c
  end.

(** Every body the connection answers with holds at most one of [text] and
    [value]. *)
Definition answers_one_payload (c : Client) : Prop :=
  ∀ hist r resp, _connection c hist r = Return resp → has_both resp = false.

(** Every body the operation can absorb holds at most one of them. *)
Definition absorbs_one_payload (cfg : Config.t) (o : op) : Prop :=
  match o with
  | Absorb resource => has_both resource = false
  | Create c | Update c | Reload c => answers_one_payload (client_of cfg c)
  | SetText _ | SetValue _ | Exists _ => True
  end.

(** The heap once request [r] has gone out. *)
Definition sending (r : Request.t) (h : Heap) : Heap :=
  mkHeap (self h) (sent h ++ [r]).

(** The state that a sequence of operations keeps: the object still
    belongs to [cfg] and its mapping does not hold both payload keys. *)
Definition one_payload (cfg : Config.t) (h : Heap) : Prop :=
  config (self h) = cfg ∧ has_both (_properties (self h)) = false.

(** ** The helper, from the specification *)

(** The part of [s] before its first slash, and the part after it when
    there is a slash. *)
Fixpoint split_slash (s : string) : string * option string :=
  match s with
  | EmptyString => (EmptyString, None)
  | String c s' =>
      if Ascii.eqb c "/" then (EmptyString, Some s')
      else let '(a, r) := split_slash s' in (String c a, r)
  end.

(** [s] with the segment [seg] and a slash taken off its front. *)
Definition strip_segment (seg : string) (s : string) : option string :=
  match split_slash s with
  | (a, Some r) => if decide (a = seg) then Some r else None
  | (_, None) => None
  end.

(** [s] with one segment, whatever it holds, and a slash taken off. *)
Definition skip_segment (s : string) : option string := (split_slash s).2.

(** Modelled from the spec: [variable_name_from_full_name] of
    [google/cloud/runtimeconfig/_helpers.py], which the module imports and
    which is not among the sources.  The spec gives the shape of a
    fully-qualified name, [projects/P/configs/C/variables/V], and says that
    the local name [V] is derived from it.  What happens on any other
    argument is not specified; this model raises [ValueError]. *)
Definition variable_name_from_full_name_model (full : pyval) : outcome string :=
  match full with
  | PyStr s =>
      match
        s ← strip_segment "projects" s;
        s ← skip_segment s;
        s ← strip_segment "configs" s;
        s ← skip_segment s;
        strip_segment "variables" s
      with
      | Some v => Return v
      | None => Raise (ValueError "Unexpected format of resource")
      end
  | _ => Raise (ValueError "Unexpected format of resource")
  end.

Definition spec_helpers : Helpers :=
  {| variable_name_from_full_name := variable_name_from_full_name_model |}.

(** ** Stub collaborators for the examples *)

(** A connection that answers every request the same way. *)
Definition stub_connection (answer : outcome dict) : Client :=
  {| _connection := λ _ _, answer |}.

(** The config [projects/p/configs/c] bound to a stub. *)
Definition stub_config (answer : outcome dict) : Config.t :=
  Config.make "projects/p/configs/c" "/projects/p/configs/c"
    (stub_connection answer).

Definition bytes (s : string) : pyval := PyBytes (list_byte_of_string s).

(** ** Counting what an operation sends *)

(** The requests that an operation can send: the four remote operations
    make one call each, the setters and [_set_properties] make none. *)
Definition requests_of (o : op) : nat :=
  match o with
  | Create _ | Update _ | Exists _ | Reload _ => 1%nat
  | SetText _ | SetValue _ | Absorb _ => 0%nat
  end.

(** The operations that never assign [self.name]. *)
Definition keeps_name (o : op) : bool :=
  match o with
  | SetText _ | SetValue _ | Exists _ => true
  | Absorb _ | Create _ | Update _ | Reload _ => false
  end.

(** Two heaps that differ at most in the client bound to the config. *)
Definition same_but_client (h1 h2 : Heap) : Prop :=
  name (self h1) = name (self h2)
  ∧ _properties (self h1) = _properties (self h2)
  ∧ sent h1 = sent h2
  ∧ Config.full_name (config (self h1)) = Config.full_name (config (self h2))
  ∧ Config.path (config (self h1)) = Config.path (config (self h2)).

(** ** The bodies that a run absorbs *)

(** [_set_properties] stores a resource when the resource has no [name]
    or the helper parses it; otherwise it raises with the mapping
    cleared. *)
Definition name_parses `{Helpers} (resource : dict) : bool :=
  match resource !! "name" with
  | None => true
  | Some full =>
      match variable_name_from_full_name full with
      | Return _ => true
      | Raise _ => false
      end
  end.

(** The body that operation [o], run from [h], hands to
    [_set_properties]: the resource of a direct call, or the answer to the
    one request of [create], [update] or [reload] when that request is sent
    and answered with a body.  The setters and [exists] hand over
    nothing. *)
Definition absorbed_by (o : op) (h : Heap) : option dict :=
  let conn := _connection (client_of (config (self h))
                             match o with
                             | Create c | Update c | Reload c | Exists c => c
                             | _ => None
                             end) (sent h) in
  match o with
  | Absorb resource => Some resource
  | Create _ =>
      match run _get_payload h with
      | (Return data, _) =>
          match conn (Request.make POST
                        (Config.path (config (self h)) +:+ "/variables")
                        (Some data) None) with
          | Return resp => Some resp
          | Raise _ => None
          end
      | (Raise _, _) => None
      end
  | Update _ =>
      match run _get_payload h with
      | (Return data, _) =>
          match run path h with
          | (Return p, _) =>
              match conn (Request.make PUT p (Some data) None) with
              | Return resp => Some resp
              | Raise _ => None
              end
          | (Raise _, _) => None
          end
      | (Raise _, _) => None
      end
  | Reload _ =>
      match run path h with
      | (Return p, _) =>
          match conn (Request.make GET p None None) with
          | Return resp => Some resp
          | Raise _ => None
          end
      | (Raise _, _) => None
      end
  | SetText _ | SetValue _ | Exists _ => None
  end.

(** The body, if any, whose fields operation [o] leaves in the mapping. *)
Definition stored_by `{Helpers} (o : op) (h : Heap) : option dict :=
  match absorbed_by o h with
  | Some d => if name_parses d then Some d else None
  | None => None
  end.

(** The bodies stored in the course of a sequence of operations, in
    order. *)
Fixpoint stored_bodies `{Helpers} (ops : list op) (h : Heap) : list dict :=
  match ops with
  | [] => []
  | o :: ops' =>
      match stored_by o h with
      | Some d => d :: stored_bodies ops' (after h o)
      | None => stored_bodies ops' (after h o)
      end
  end.

(** * Theorems *)

(** ** Base64: decoding undoes encoding *)

Module base64_facts.
Import base64.

Lemma byte_of_Z_of_byte (b : byte) : byte_of_Z (Z_of_byte b) = b.
Proof.
  unfold byte_of_Z, Z_of_byte. by rewrite N2Z.id, Byte.of_to_N.
Qed.

Lemma in_all_bytes (b : byte) : In b all_bytes.
Proof.
  apply in_map_iff. exists (N.to_nat (Byte.to_N b)). split.
  - rewrite N_nat_Z. apply byte_of_Z_of_byte.
  - apply in_seq. pose proof (Byte.to_N_bounded b). lia.
Qed.

Lemma byte_cases (P : byte → bool) :
  forallb P all_bytes = true → ∀ b, P b = true.
Proof. intros HP b. eapply forallb_forall; [exact HP | apply in_all_bytes]. Qed.

Lemma byte_pair_cases (P : byte → byte → bool) :
  forallb (λ x, forallb (P x) all_bytes) all_bytes = true → ∀ x y, P x y = true.
Proof.
  intros HP x y. apply byte_cases. by apply (byte_cases _ HP x).
Qed.

Lemma char_ok_range (s : Z) : sextet_range s = true → char_ok s = true.
Proof.
  unfold sextet_range. intros Hs.
  assert (forallb (λ n, char_ok (Z.of_nat n)) (seq 0 64) = true) as Hall
    by (vm_compute; reflexivity).
  rewrite forallb_forall in Hall.
  rewrite <- (Z2Nat.id s) by lia. apply Hall, in_seq. lia.
Qed.

Lemma chunk_ok_all (x y : byte) : chunk_ok x y = true.
Proof. revert x y. apply byte_pair_cases. vm_compute. reflexivity. Qed.

Lemma char_ok_elim (s : Z) :
  char_ok s = true →
  Byte.eqb (b2a s) BASE64_PAD = false ∧ table_a2b_base64 (b2a s) = Some s.
Proof.
  unfold char_ok. intros [Hpad Htab]%andb_prop. split.
  - by apply negb_true_iff.
  - destruct (table_a2b_base64 (b2a s)) as [d|]; [|done].
    by apply Z.eqb_eq in Htab as ->.
Qed.

(** One character of the alphabet, at each position of a group of four. *)
Lemma a2b_loop_char (s : Z) (rest : list byte) (quad_pos leftchar pads : Z)
    (bin_data : list byte) :
  sextet_range s = true →
  a2b_loop (b2a s :: rest) quad_pos leftchar pads bin_data =
  if quad_pos =? 0 then a2b_loop rest 1 s 0 bin_data
  else if quad_pos =? 1 then
    a2b_loop rest 2 (Z.land s 15) 0
      (bin_data ++ [byte_of_Z (Z.land (Z.lor (Z.shiftl leftchar 2) (Z.shiftr s 4)) 255)])
  else if quad_pos =? 2 then
    a2b_loop rest 3 (Z.land s 3) 0
      (bin_data ++ [byte_of_Z (Z.land (Z.lor (Z.shiftl leftchar 4) (Z.shiftr s 2)) 255)])
  else
    a2b_loop rest 0 0 0
      (bin_data ++ [byte_of_Z (Z.land (Z.lor (Z.shiftl leftchar 6) s) 255)]).
Proof.
  intros Hs. apply char_ok_range, char_ok_elim in Hs as [Hpad Htab].
  cbn [a2b_loop]. by rewrite Hpad, Htab.
Qed.

Section chunk.
Variables x y : byte.
Let a := Z_of_byte x.
Let b := Z_of_byte y.

Lemma chunk_facts :
  (sextet_range (sextet1 a) = true ∧ sextet_range (sextet2 a b) = true
   ∧ sextet_range (sextet3 a b) = true ∧ sextet_range (sextet4 a) = true)
  ∧ byte_of_Z (Z.land (Z.lor (Z.shiftl (sextet1 a) 2) (Z.shiftr (sextet2 a b) 4)) 255) = x
  ∧ Z.land (sextet2 a b) 15 = Z.shiftr b 4
  ∧ byte_of_Z (Z.land (Z.lor (Z.shiftl (Z.shiftr a 4) 4) (Z.shiftr (sextet3 a b) 2)) 255) = x
  ∧ Z.land (sextet3 a b) 3 = Z.shiftr b 6
  ∧ byte_of_Z (Z.land (Z.lor (Z.shiftl (Z.shiftr a 6) 6) (sextet4 a)) 255) = x.
Proof.
  pose proof (chunk_ok_all x y) as Hok. unfold chunk_ok in Hok.
  fold a b in Hok.
  do 8 (apply andb_prop in Hok as [Hok ?]).
  repeat split; try done;
    try (by apply Byte.byte_dec_bl); by apply Z.eqb_eq.
Qed.
End chunk.

Lemma a2b_loop_chunk (x y z : byte) (rest bin_data : list byte) :
  let a := Z_of_byte x in
  let b := Z_of_byte y in
  let c := Z_of_byte z in
  a2b_loop (b2a (sextet1 a) :: b2a (sextet2 a b) :: b2a (sextet3 b c)
              :: b2a (sextet4 c) :: rest) 0 0 0 bin_data
  = a2b_loop rest 0 0 0 (bin_data ++ [x; y; z]).
Proof.
  intros a b c.
  destruct (chunk_facts x y) as ((R1 & R2 & _ & _) & B1 & L2 & _).
  destruct (chunk_facts y z) as ((_ & _ & R3 & _) & _ & _ & B2 & L3 & _).
  destruct (chunk_facts z z) as ((_ & _ & _ & R4) & _ & _ & _ & _ & B3).
  fold a b c in R1, R2, R3, R4, B1, L2, B2, L3, B3.
  rewrite (a2b_loop_char _ _ 0) by done. cbn [Z.eqb].
  rewrite (a2b_loop_char _ _ 1) by done. cbn [Z.eqb Pos.eqb].
  rewrite (a2b_loop_char _ _ 2) by done. cbn [Z.eqb Pos.eqb].
  rewrite (a2b_loop_char _ _ 3) by done. cbn [Z.eqb Pos.eqb].
  rewrite B1, L2, B2, L3, B3.
  by rewrite <- !app_assoc.
Qed.

Lemma a2b_loop_last1 (x : byte) (bin_data : list byte) :
  a2b_loop (b2a_base64 [x]) 0 0 0 bin_data = Return (bin_data ++ [x])%list.
Proof.
  destruct (chunk_facts x x00) as ((R1 & R2 & _ & _) & B1 & _).
  cbn [b2a_base64].
  change (sextet2 (Z_of_byte x) 0) with (sextet2 (Z_of_byte x) (Z_of_byte x00)).
  rewrite (a2b_loop_char _ _ 0) by done. cbn [Z.eqb].
  rewrite (a2b_loop_char _ _ 1) by done. cbn [Z.eqb Pos.eqb].
  by rewrite B1.
Qed.

Lemma a2b_loop_last2 (x y : byte) (bin_data : list byte) :
  a2b_loop (b2a_base64 [x; y]) 0 0 0 bin_data = Return (bin_data ++ [x; y])%list.
Proof.
  destruct (chunk_facts x y) as ((R1 & R2 & _ & _) & B1 & L2 & _).
  destruct (chunk_facts y x00) as ((_ & _ & R3 & _) & _ & _ & B2 & _).
  cbn [b2a_base64].
  change (sextet3 (Z_of_byte y) 0) with (sextet3 (Z_of_byte y) (Z_of_byte x00)).
  rewrite (a2b_loop_char _ _ 0) by done. cbn [Z.eqb].
  rewrite (a2b_loop_char _ _ 1) by done. cbn [Z.eqb Pos.eqb].
  rewrite (a2b_loop_char _ _ 2) by done. cbn [Z.eqb Pos.eqb].
  rewrite B1, L2, B2. by rewrite <- app_assoc.
Qed.

Lemma a2b_loop_b2a_base64 (n : nat) :
  ∀ bs bin_data, (length bs ≤ n)%nat →
    a2b_loop (b2a_base64 bs) 0 0 0 bin_data = Return (bin_data ++ bs)%list.
Proof.
  induction n as [n IH] using lt_wf_ind.
  intros [|x [|y [|z rest]]] bin_data Hlen.
  - cbn. by rewrite app_nil_r.
  - apply a2b_loop_last1.
  - apply a2b_loop_last2.
  - change (b2a_base64 (x :: y :: z :: rest))
      with (b2a (sextet1 (Z_of_byte x)) :: b2a (sextet2 (Z_of_byte x) (Z_of_byte y))
              :: b2a (sextet3 (Z_of_byte y) (Z_of_byte z))
              :: b2a (sextet4 (Z_of_byte z)) :: b2a_base64 rest).
    rewrite a2b_loop_chunk.
    rewrite (IH (length rest)) by (cbn in Hlen; lia).
    by rewrite <- app_assoc.
Qed.

(** Decoding undoes encoding. *)
Lemma a2b_b2a_base64 (bs : list byte) : a2b_base64 (b2a_base64 bs) = Return bs.
Proof. unfold a2b_base64. by rewrite (a2b_loop_b2a_base64 (length bs)). Qed.

Lemma b2a_ascii (s : Z) : (Z_of_byte (b2a s) <? 128) = true.
Proof.
  unfold b2a.
  destruct (table_b2a_base64 !! Z.to_nat s) as [c|] eqn:Hc; [|done].
  assert (forallb (λ c, Z_of_byte c <? 128) table_b2a_base64 = true) as Hall
    by (vm_compute; reflexivity).
  rewrite forallb_forall in Hall. apply Hall.
  apply list_elem_of_In. by eapply list_elem_of_lookup_2.
Qed.

Lemma b2a_base64_ascii (n : nat) :
  ∀ bs, (length bs ≤ n)%nat → is_ascii (b2a_base64 bs) = true.
Proof.
  induction n as [n IH] using lt_wf_ind.
  intros [|x [|y [|z rest]]] Hlen.
  - done.
  - cbn [b2a_base64 is_ascii forallb]. by rewrite !b2a_ascii.
  - cbn [b2a_base64 is_ascii forallb]. by rewrite !b2a_ascii.
  - change (b2a_base64 (x :: y :: z :: rest))
      with (b2a (sextet1 (Z_of_byte x)) :: b2a (sextet2 (Z_of_byte x) (Z_of_byte y))
              :: b2a (sextet3 (Z_of_byte y) (Z_of_byte z))
              :: b2a (sextet4 (Z_of_byte z)) :: b2a_base64 rest).
    cbn [is_ascii forallb]. rewrite !b2a_ascii. cbn [andb].
    apply (IH (length rest)); cbn in Hlen; lia.
Qed.

(** [b64decode] undoes [b64encode], on the bytes and on the [str] made of
    them. *)
Lemma b64decode_b64encode (bs : list byte) :
  b64decode (PyBytes (b2a_base64 bs)) = Return bs
  ∧ b64decode (PyStr (decode_utf8 (b2a_base64 bs))) = Return bs.
Proof.
  split; cbn.
  - apply a2b_b2a_base64.
  - unfold decode_utf8. rewrite list_byte_of_string_of_list_byte.
    rewrite (b2a_base64_ascii (length bs)) by lia.
    apply a2b_b2a_base64.
Qed.

End base64_facts.

(** ** Running a method *)

Lemma run_bind {A B} (m : M A) (f : A → M B) (h : Heap) :
  run (m ≫= f) h =
  match run m h with
  | (Return a, h') => run (f a) h'
  | (Raise e, h') => (Raise e, h')
  end.
Proof. reflexivity. Qed.

Lemma run_bind_return {A B} (m : M A) (f : A → M B) (h h' : Heap) (a : A) :
  run m h = (Return a, h') → run (m ≫= f) h = run (f a) h'.
Proof. intros Hm. by rewrite run_bind, Hm. Qed.

Lemma run_bind_raise {A B} (m : M A) (f : A → M B) (h h' : Heap) (e : exn) :
  run m h = (Raise e, h') → run (m ≫= f) h = (Raise e, h').
Proof. intros Hm. by rewrite run_bind, Hm. Qed.

Lemma falsy_false (x : option string) :
  falsy x = false ↔ ∃ n, x = Some n ∧ n ≠ "".
Proof.
  unfold falsy. destruct x as [s|].
  - destruct (decide (s = "")) as [->|Hs]; split.
    + discriminate.
    + intros (n & [= <-] & Hn). by destruct Hn.
    + intros _. by exists s.
    + done.
  - split; [discriminate | intros (n & Hn & _); discriminate].
Qed.

(** The two derived names, whenever the variable has a name. *)
Lemma run_full_name (h : Heap) (n : string) :
  name (self h) = Some n → n ≠ "" →
  run full_name h
  = (Return (Config.full_name (config (self h)) +:+ "/variables/" +:+ n), h).
Proof.
  intros Hn Hne. unfold full_name. rewrite run_bind. cbn.
  assert (falsy (name (self h)) = false) as ->.
  { apply falsy_false. eauto. }
  by rewrite Hn.
Qed.

Lemma run_full_name_missing (h : Heap) :
  falsy (name (self h)) = true →
  run full_name h = (Raise (ValueError "Missing variable name."), h).
Proof. intros Hn. unfold full_name. rewrite run_bind. cbn. by rewrite Hn. Qed.

Lemma run_path (h : Heap) (n : string) :
  name (self h) = Some n → n ≠ "" →
  run path h
  = (Return ("/" +:+ Config.full_name (config (self h)) +:+ "/variables/" +:+ n), h).
Proof.
  intros Hn Hne. unfold path.
  by rewrite (run_bind_return _ _ _ _ _ (run_full_name h n Hn Hne)).
Qed.

Lemma run_path_missing (h : Heap) :
  falsy (name (self h)) = true →
  run path h = (Raise (ValueError "Missing variable name."), h).
Proof.
  intros Hn. unfold path.
  by rewrite (run_bind_raise _ _ _ _ _ (run_full_name_missing h Hn)).
Qed.

(** *** full_name and path *)

(** C5.  A variable with a non-empty name has the full name
    [{config.full_name}/variables/{name}] and the path [/{full_name}], and
    computing either leaves the object as it is; with a name that is empty
    or unset, [full_name] raises [ValueError("Missing variable name.")],
    the code's signal for the invalid state. *)
Theorem full_name_and_path (h : Heap) :
  (∀ n : string, name (self h) = Some n → n ≠ "" →
     let fn := Config.full_name (config (self h)) +:+ "/variables/" +:+ n in
     run full_name h = (Return fn, h) ∧ run path h = (Return ("/" +:+ fn), h))
  ∧ (name (self h) = None ∨ name (self h) = Some "" →
     run full_name h = (Raise (ValueError "Missing variable name."), h)).
Proof.
  split.
  - intros n Hn Hne fn. split.
    + by apply run_full_name.
    + by apply run_path.
  - intros Hn. apply run_full_name_missing.
    by destruct Hn as [-> | ->].
Qed.

(** The example of the specification: name [v1] under the config
    [projects/p/configs/c]; and the two nameless variables. *)
Lemma full_name_and_path_witness :
  let h s := mkHeap (__init__ s (stub_config (Raise NotFound))) [] in
  (run full_name (h (Some "v1")) = (Return "projects/p/configs/c/variables/v1", h (Some "v1"))
   ∧ run path (h (Some "v1")) = (Return "/projects/p/configs/c/variables/v1", h (Some "v1")))
  ∧ run full_name (h None) = (Raise (ValueError "Missing variable name."), h None)
  ∧ run full_name (h (Some "")) = (Raise (ValueError "Missing variable name."), h (Some "")).
Proof.
  intros h. split; [| split].
  - apply (proj1 (full_name_and_path (h (Some "v1"))) "v1"); [reflexivity | discriminate].
  - apply (proj2 (full_name_and_path (h None))). left. reflexivity.
  - apply (proj2 (full_name_and_path (h (Some "")))). right. reflexivity.
Defined.

(** *** The setters *)

Lemma dict_in_false (k : string) (d : dict) :
  dict_in k d = false ↔ d !! k = None.
Proof. unfold dict_in. by destruct (d !! k). Qed.

Lemma run_text_setter (h : Heap) (t : pyval) :
  run (text_setter t) h =
  if dict_in "value" (_properties (self h))
  then (Raise (Error "Value and text are mutually exclusive."), h)
  else (Return (),
        mkHeap (mkVariable (name (self h)) (config (self h))
                  (<["text" := t]> (_properties (self h)))) (sent h)).
Proof.
  unfold text_setter. rewrite run_bind. cbn.
  by destruct (dict_in "value" (_properties (self h))).
Qed.

Lemma run_value_setter (h : Heap) (b : pyval) :
  run (value_setter b) h =
  if dict_in "text" (_properties (self h))
  then (Raise (Error "Value and text are mutually exclusive."), h)
  else (Return (),
        mkHeap (mkVariable (name (self h)) (config (self h))
                  (<["value" := b]> (_properties (self h)))) (sent h)).
Proof.
  unfold value_setter. rewrite run_bind. cbn.
  by destruct (dict_in "text" (_properties (self h))).
Qed.

(** C3.  Setting [text] while the mapping holds a [value] key raises the
    module's [Error] ("Value and text are mutually exclusive."), and so
    does setting [value] while it holds a [text] key.  The heap after the
    failed call is the heap before it: the object, with its whole property
    mapping, is unchanged and no request has been sent. *)
Theorem setter_conflict (h : Heap) (x : pyval) :
  (dict_in "value" (_properties (self h)) = true →
   run (text_setter x) h
   = (Raise (Error "Value and text are mutually exclusive."), h))
  ∧ (dict_in "text" (_properties (self h)) = true →
     run (value_setter x) h
     = (Raise (Error "Value and text are mutually exclusive."), h)).
Proof.
  split; intros Hin.
  - by rewrite run_text_setter, Hin.
  - by rewrite run_value_setter, Hin.
Qed.

(** [value] then [text], and [text] then [value], on a fresh variable. *)
Lemma setter_conflict_witness :
  let h0 := mkHeap (__init__ (Some "v1") (stub_config (Raise NotFound))) [] in
  let hv := (run (value_setter (bytes "secret")) h0).2 in
  let ht := (run (text_setter (PyStr "hello")) h0).2 in
  (_properties (self hv) = {[ "value" := bytes "secret" ]}
   ∧ run (text_setter (PyStr "hello")) hv
     = (Raise (Error "Value and text are mutually exclusive."), hv))
  ∧ (_properties (self ht) = {[ "text" := PyStr "hello" ]}
     ∧ run (value_setter (bytes "secret")) ht
       = (Raise (Error "Value and text are mutually exclusive."), ht)).
Proof.
  intros h0 hv ht. split; split.
  - reflexivity.
  - apply (proj1 (setter_conflict hv (PyStr "hello"))). reflexivity.
  - reflexivity.
  - apply (proj2 (setter_conflict ht (bytes "secret"))). reflexivity.
Defined.

(** *** The payload *)

Lemma run_get_payload_named (h : Heap) (n : string) :
  name (self h) = Some n → n ≠ "" →
  let fn := Config.full_name (config (self h)) +:+ "/variables/" +:+ n in
  let data : dict := {[ "name" := PyStr fn ]} in
  run _get_payload h =
  match _properties (self h) !! "text" with
  | Some t => (Return (<["text" := t]> data), h)
  | None =>
      match _properties (self h) !! "value" with
      | Some value =>
          match base64.b64encode value with
          | Return b => (Return (<["value" := PyStr (base64.decode_utf8 b)]> data), h)
          | Raise e => (Raise e, h)
          end
      | None => (Raise (Error "No text or value set."), h)
      end
  end.
Proof.
  intros Hn Hne fn data. unfold _get_payload.
  rewrite (run_bind_return _ _ _ _ _ (run_full_name h n Hn Hne)).
  rewrite run_bind. cbn.
  destruct (_properties (self h) !! "text") as [t|]; [done|].
  destruct (_properties (self h) !! "value") as [value|]; [|done].
  rewrite run_bind. unfold run, lift.
  by destruct (base64.b64encode value).
Qed.

Lemma run_get_payload_missing_name (h : Heap) :
  falsy (name (self h)) = true →
  run _get_payload h = (Raise (ValueError "Missing variable name."), h).
Proof.
  intros Hn. unfold _get_payload.
  by rewrite (run_bind_raise _ _ _ _ _ (run_full_name_missing h Hn)).
Qed.

(** C4, as the claim states it, fails on a variable without a name: the
    payload starts with [full_name], whose [ValueError] comes before the
    check for a missing payload. *)
Lemma get_payload_nameless :
  let h := mkHeap (__init__ (Some "") (stub_config (Raise NotFound))) [] in
  dict_in "text" (_properties (self h)) = false
  ∧ dict_in "value" (_properties (self h)) = false
  ∧ run _get_payload h = (Raise (ValueError "Missing variable name."), h)
  ∧ ValueError "Missing variable name." ≠ Error "No text or value set.".
Proof. by repeat split. Qed.

(** C4 (amended).  On a variable with a non-empty name: with neither key
    set, [_get_payload] raises [Error("No text or value set.")]; with
    [text] set to [t], it returns exactly [{"name": full_name, "text": t}],
    which has no [value] key; with bytes [b] under [value] and no [text],
    it returns exactly [{"name": full_name, "value": base64(b)}], which has
    no [text] key.  The object is unchanged in every case. *)
Theorem get_payload_spec (h : Heap) (n : string) :
  name (self h) = Some n → n ≠ "" →
  let fn := Config.full_name (config (self h)) +:+ "/variables/" +:+ n in
  (_properties (self h) !! "text" = None →
   _properties (self h) !! "value" = None →
   run _get_payload h = (Raise (Error "No text or value set."), h))
  ∧ (∀ t, _properties (self h) !! "text" = Some t →
       ∃ data : dict,
         run _get_payload h = (Return data, h)
         ∧ data = <["text" := t]> {[ "name" := PyStr fn ]}
         ∧ dict_in "value" data = false)
  ∧ (∀ b, _properties (self h) !! "text" = None →
       _properties (self h) !! "value" = Some (PyBytes b) →
       ∃ data : dict,
         run _get_payload h = (Return data, h)
         ∧ data = <["value" := PyStr (string_of_list_byte (base64.b2a_base64 b))]>
                    {[ "name" := PyStr fn ]}
         ∧ dict_in "text" data = false).
Proof.
  intros Hn Hne fn. pose proof (run_get_payload_named h n Hn Hne) as Hrun.
  cbn zeta in Hrun. fold fn in Hrun. split; [| split].
  - intros Ht Hv. by rewrite Hrun, Ht, Hv.
  - intros t Ht. eexists. rewrite Hrun, Ht.
    split; [reflexivity | split; [reflexivity |]].
    apply dict_in_false. by simplify_map_eq.
  - intros b Ht Hv. eexists. rewrite Hrun, Ht, Hv. cbn.
    split; [reflexivity | split; [reflexivity |]].
    apply dict_in_false. by simplify_map_eq.
Qed.

(** The example of the specification, [text="hello"], with the empty and
    the binary variable beside it. *)
Lemma get_payload_spec_witness :
  let h0 := mkHeap (__init__ (Some "v1") (stub_config (Raise NotFound))) [] in
  let ht := (run (text_setter (PyStr "hello")) h0).2 in
  let hv := (run (value_setter (bytes "hello")) h0).2 in
  run _get_payload h0 = (Raise (Error "No text or value set."), h0)
  ∧ (∃ data : dict,
       run _get_payload ht = (Return data, ht)
       ∧ data = <["text" := PyStr "hello"]>
                  {[ "name" := PyStr "projects/p/configs/c/variables/v1" ]}
       ∧ dict_in "value" data = false)
  ∧ (∃ data : dict,
       run _get_payload hv = (Return data, hv)
       ∧ data = <["value" := PyStr "aGVsbG8="]>
                  {[ "name" := PyStr "projects/p/configs/c/variables/v1" ]}
       ∧ dict_in "text" data = false).
Proof.
  intros h0 ht hv. split; [| split].
  - apply (proj1 (get_payload_spec h0 "v1" eq_refl ltac:(discriminate)));
      reflexivity.
  - apply (proj1 (proj2 (get_payload_spec ht "v1" eq_refl ltac:(discriminate)))).
    reflexivity.
  - apply (proj2 (proj2 (get_payload_spec hv "v1" eq_refl ltac:(discriminate)))
             (list_byte_of_string "hello")); reflexivity.
Defined.

(** C10.  When the mapping holds both a [text] key and a [value] key (on a
    named variable, so that there is a payload at all), the payload is
    exactly [{"name": full_name, "text": t}]: [text] wins and [value] is
    left out, whatever is stored under it. *)
Theorem get_payload_text_precedence (h : Heap) (n : string) (t x : pyval) :
  name (self h) = Some n → n ≠ "" →
  _properties (self h) !! "text" = Some t →
  _properties (self h) !! "value" = Some x →
  let fn := Config.full_name (config (self h)) +:+ "/variables/" +:+ n in
  ∃ data : dict,
    run _get_payload h = (Return data, h)
    ∧ data !! "name" = Some (PyStr fn)
    ∧ data !! "text" = Some t
    ∧ data !! "value" = None
    ∧ dom data = {[ "name"; "text" ]}.
Proof.
  intros Hn Hne Ht Hx fn.
  pose proof (run_get_payload_named h n Hn Hne) as Hrun.
  cbn zeta in Hrun. fold fn in Hrun. rewrite Ht in Hrun.
  eexists. split; [exact Hrun|].
  split; [by simplify_map_eq|].
  split; [by simplify_map_eq|].
  split; [by simplify_map_eq|].
  rewrite dom_insert_L, dom_singleton_L. set_solver.
Qed.

(** *** Absorbing a server response *)

Section absorbing.
Context `{Helpers}.

(** The three ways [_set_properties] can end.  The mapping it leaves
    behind never depends on the mapping it found. *)
Lemma run_set_properties (resource : dict) (h : Heap) :
  run (_set_properties resource) h =
  match resource !! "name" with
  | None =>
      (Return (),
       mkHeap (mkVariable (name (self h)) (config (self h)) resource) (sent h))
  | Some full =>
      match variable_name_from_full_name full with
      | Return n =>
          (Return (),
           mkHeap (mkVariable (Some n) (config (self h)) (delete "name" resource))
             (sent h))
      | Raise e =>
          (Raise e,
           mkHeap (mkVariable (name (self h)) (config (self h)) ∅) (sent h))
      end
  end.
Proof.
  unfold _set_properties. rewrite run_bind. cbn.
  destruct (resource !! "name") as [full|].
  - rewrite !run_bind. unfold run at 1, lift at 1.
    destruct (variable_name_from_full_name full) as [n|e]; cbn; [|done].
    repeat (rewrite run_bind; cbn).
    by rewrite (right_id_L ∅ (∪)).
  - repeat (rewrite run_bind; cbn). by rewrite (right_id_L ∅ (∪)).
Qed.

Lemma set_properties_config (resource : dict) (h : Heap) :
  config (self (run (_set_properties resource) h).2) = config (self h).
Proof.
  rewrite run_set_properties.
  destruct (resource !! "name") as [full|]; [|done].
  by destruct (variable_name_from_full_name full).
Qed.

Lemma has_both_delete_name (d : dict) :
  has_both (delete "name" d) = has_both d.
Proof.
  unfold has_both, dict_in. by rewrite !lookup_delete_ne.
Qed.

(** After a response is absorbed the mapping holds both payload keys
    only if the response did. *)
Lemma set_properties_has_both (resource : dict) (h : Heap) :
  has_both (_properties (self (run (_set_properties resource) h).2)) = true →
  has_both resource = true.
Proof.
  rewrite run_set_properties.
  destruct (resource !! "name") as [full|]; [|done].
  destruct (variable_name_from_full_name full); cbn.
  - by rewrite has_both_delete_name.
  - done.
Qed.

End absorbing.

(** *** The remote operations *)

Lemma run_path_pure (h : Heap) : (run path h).2 = h.
Proof.
  destruct (falsy (name (self h))) eqn:Hn.
  - by rewrite run_path_missing.
  - apply falsy_false in Hn as (n & Hn & Hne). by rewrite (run_path h n).
Qed.

Lemma run_get_payload_pure (h : Heap) : (run _get_payload h).2 = h.
Proof.
  destruct (falsy (name (self h))) eqn:Hn.
  - by rewrite run_get_payload_missing_name.
  - apply falsy_false in Hn as (n & Hn & Hne).
    rewrite (run_get_payload_named h n Hn Hne). cbn zeta.
    destruct (_properties (self h) !! "text"); [done|].
    destruct (_properties (self h) !! "value") as [x|]; [|done].
    by destruct (base64.b64encode x).
Qed.

Lemma run_require_client (c : option Client) (h : Heap) :
  run (_require_client c) h = (Return (client_of (config (self h)) c), h).
Proof. by destruct c. Qed.

Section remote.
Context `{Helpers}.

(** [create], case by case. *)
Lemma run_create (c : option Client) (h : Heap) :
  run (create c) h =
  match run _get_payload h with
  | (Raise e, _) => (Raise e, h)
  | (Return data, _) =>
      let r := Request.make POST (Config.path (config (self h)) +:+ "/variables")
                 (Some data) None in
      match _connection (client_of (config (self h)) c) (sent h) r with
      | Raise e =>
          if is_Conflict e then (Return false, sending r h)
          else (Raise e, sending r h)
      | Return resp =>
          match run (_set_properties resp) (sending r h) with
          | (Return _, h') => (Return true, h')
          | (Raise e, h') => (Raise e, h')
          end
      end
  end.
Proof.
  unfold create. rewrite run_bind, run_require_client.
  rewrite run_bind. cbn [run get_self].
  rewrite run_bind.
  pose proof (run_get_payload_pure h) as Hpure.
  destruct (run _get_payload h) as [[data|e] h']; cbn in Hpure; subst h'; [|done].
  rewrite run_bind. unfold run at 1, try_except, api_request. cbn zeta.
  fold (sending (Request.make POST (Config.path (config (self h)) +:+ "/variables")
                   (Some data) None) h).
  destruct (_connection _ _ _) as [resp|e].
  - rewrite run_bind.
    by destruct (run (_set_properties resp) _) as [[[]|e] h'].
  - by destruct (is_Conflict e).
Qed.

(** [update], case by case. *)
Lemma run_update (c : option Client) (h : Heap) :
  run (update c) h =
  match run _get_payload h with
  | (Raise e, _) => (Raise e, h)
  | (Return data, _) =>
      match run path h with
      | (Raise e, _) => if is_NotFound e then (Return false, h) else (Raise e, h)
      | (Return p, _) =>
          let r := Request.make PUT p (Some data) None in
          match _connection (client_of (config (self h)) c) (sent h) r with
          | Raise e =>
              if is_NotFound e then (Return false, sending r h)
              else (Raise e, sending r h)
          | Return resp =>
              match run (_set_properties resp) (sending r h) with
              | (Return _, h') => (Return true, h')
              | (Raise e, h') => (Raise e, h')
              end
          end
      end
  end.
Proof.
  unfold update. rewrite run_bind, run_require_client. rewrite run_bind.
  pose proof (run_get_payload_pure h) as Hpure.
  destruct (run _get_payload h) as [[data|e] h']; cbn in Hpure; subst h'; [|done].
  rewrite run_bind. unfold run at 1, try_except.
  change ((p ← path; api_request (client_of (config (self h)) c) PUT p (Some data) None) h)
    with (run (p ← path; api_request (client_of (config (self h)) c) PUT p (Some data) None) h).
  rewrite run_bind.
  pose proof (run_path_pure h) as Hp.
  destruct (run path h) as [[p|e] h']; cbn in Hp; subst h'.
  - unfold run at 1, api_request. cbn zeta.
    fold (sending (Request.make PUT p (Some data) None) h).
    destruct (_connection _ _ _) as [resp|e].
    + rewrite run_bind.
      by destruct (run (_set_properties resp) _) as [[[]|e] h'].
    + by destruct (is_NotFound e).
  - by destruct (is_NotFound e).
Qed.

(** [reload], case by case. *)
Lemma run_reload (c : option Client) (h : Heap) :
  run (reload c) h =
  match run path h with
  | (Raise e, _) => (Raise e, h)
  | (Return p, _) =>
      let r := Request.make GET p None None in
      match _connection (client_of (config (self h)) c) (sent h) r with
      | Raise e => (Raise e, sending r h)
      | Return resp => run (_set_properties resp) (sending r h)
      end
  end.
Proof.
  unfold reload. rewrite run_bind, run_require_client. rewrite run_bind.
  pose proof (run_path_pure h) as Hp.
  destruct (run path h) as [[p|e] h']; cbn in Hp; subst h'; [|done].
  rewrite run_bind. unfold run at 1, api_request. cbn zeta.
  fold (sending (Request.make GET p None None) h).
  by destruct (_connection _ _ _) as [resp|e].
Qed.

End remote.

(** [exists], case by case. *)
Lemma run_exists (c : option Client) (h : Heap) :
  run (exists_ c) h =
  match run path h with
  | (Raise e, _) => if is_NotFound e then (Return false, h) else (Raise e, h)
  | (Return p, _) =>
      let r := Request.make GET p None (Some {[ "fields" := PyStr "name" ]}) in
      match _connection (client_of (config (self h)) c) (sent h) r with
      | Raise e =>
          if is_NotFound e then (Return false, sending r h)
          else (Raise e, sending r h)
      | Return _ => (Return true, sending r h)
      end
  end.
Proof.
  unfold exists_. rewrite run_bind, run_require_client. rewrite run_bind.
  unfold run at 1, try_except. cbn zeta.
  match goal with
  | |- context [match ?m h with _ => _ end] => change (m h) with (run m h)
  end.
  rewrite run_bind.
  pose proof (run_path_pure h) as Hp.
  destruct (run path h) as [[p|e] h']; cbn in Hp; subst h'.
  - rewrite run_bind. unfold run at 1, api_request. cbn zeta.
    fold (sending (Request.make GET p None (Some {[ "fields" := PyStr "name" ]})) h).
    destruct (_connection _ _ _) as [resp|e]; [done|].
    by destruct (is_NotFound e).
  - by destruct (is_NotFound e).
Qed.

Section remote_claims.
Context `{Helpers}.

(** C6.  Once the payload is built, [create] posts it to
    [{config.path}/variables].  If the connection raises [Conflict],
    [create] returns [False] and the object, with its property mapping, is
    as before the call; if it answers with a body, [create] absorbs the
    body with [_set_properties] and returns [True]. *)
Theorem create_conflict_or_absorb (c : option Client) (h : Heap) (data : dict) :
  run _get_payload h = (Return data, h) →
  let r := Request.make POST (Config.path (config (self h)) +:+ "/variables")
             (Some data) None in
  let answer := _connection (client_of (config (self h)) c) (sent h) r in
  (answer = Raise Conflict →
   run (create c) h = (Return false, mkHeap (self h) (sent h ++ [r])))
  ∧ (∀ resp h',
       answer = Return resp →
       run (_set_properties resp) (mkHeap (self h) (sent h ++ [r])) = (Return (), h') →
       run (create c) h = (Return true, h')).
Proof.
  intros Hpay r answer. split.
  - intros Hans. rewrite run_create, Hpay. cbn zeta.
    fold r. fold answer. by rewrite Hans.
  - intros resp h' Hans Habs. rewrite run_create, Hpay. cbn zeta.
    fold r. fold answer. rewrite Hans. unfold sending. by rewrite Habs.
Qed.

(** C7.  On a named variable whose payload is built, [update] puts it to
    the variable's path and, if the connection raises [NotFound], returns
    [False]; [reload] gets the same path and, if the connection raises
    [NotFound], raises [NotFound] itself.  Neither changes the object. *)
Theorem update_swallows_reload_raises (c : option Client) (h : Heap) (n : string) :
  name (self h) = Some n → n ≠ "" →
  let p := "/" +:+ Config.full_name (config (self h)) +:+ "/variables/" +:+ n in
  let conn := _connection (client_of (config (self h)) c) in
  (∀ data,
     run _get_payload h = (Return data, h) →
     let r := Request.make PUT p (Some data) None in
     conn (sent h) r = Raise NotFound →
     run (update c) h = (Return false, mkHeap (self h) (sent h ++ [r])))
  ∧ (let r := Request.make GET p None None in
     conn (sent h) r = Raise NotFound →
     run (reload c) h = (Raise NotFound, mkHeap (self h) (sent h ++ [r]))).
Proof.
  intros Hn Hne p conn. split.
  - intros data Hpay r Hans.
    rewrite run_update, Hpay, (run_path h n Hn Hne). cbn zeta.
    fold p. fold r. fold conn. by rewrite Hans.
  - intros r Hans.
    rewrite run_reload, (run_path h n Hn Hne). cbn zeta.
    fold p. fold r. fold conn. by rewrite Hans.
Qed.

End remote_claims.

(** C8.  [exists] never changes the object: its name, config and property
    mapping are the same after the call, however the call ends.  On a named
    variable it gets the variable's path with [fields=name]; it returns
    [True] when the connection answers and [False] when the connection
    raises [NotFound], and the only change to the heap is the request
    sent. *)
Theorem exists_frame (c : option Client) (h : Heap) :
  self (run (exists_ c) h).2 = self h
  ∧ (∀ n, name (self h) = Some n → n ≠ "" →
       let p := "/" +:+ Config.full_name (config (self h)) +:+ "/variables/" +:+ n in
       let r := Request.make GET p None (Some {[ "fields" := PyStr "name" ]}) in
       let answer := _connection (client_of (config (self h)) c) (sent h) r in
       (∀ resp, answer = Return resp →
          run (exists_ c) h = (Return true, mkHeap (self h) (sent h ++ [r])))
       ∧ (answer = Raise NotFound →
          run (exists_ c) h = (Return false, mkHeap (self h) (sent h ++ [r])))).
Proof.
  split.
  - rewrite run_exists.
    destruct (run path h) as [[p|e] h'].
    + cbn zeta. destruct (_connection _ _ _) as [resp|e]; [done|].
      by destruct (is_NotFound e).
    + by destruct (is_NotFound e).
  - intros n Hn Hne p r answer. split.
    + intros resp Hans. rewrite run_exists, (run_path h n Hn Hne). cbn zeta.
      fold p. fold r. fold answer. by rewrite Hans.
    + intros Hans. rewrite run_exists, (run_path h n Hn Hne). cbn zeta.
      fold p. fold r. fold answer. by rewrite Hans.
Qed.

(** C9.  [_set_properties] replaces the property mapping by the resource
    without its [name] key, whatever the mapping held before, and sets the
    local name to what the helper derives from the resource's [name]; a
    resource without a [name] key leaves the local name alone.  With the
    helper of the specification, absorbing
    [{"name": "projects/p/configs/c/variables/v2", "text": "x"}] into any
    variable sets its name to [v2] and leaves [{"text": "x"}] as the whole
    mapping, so that a [value] held before is gone and the [value] getter
    returns [None]. *)
Theorem set_properties_replaces `{Helpers} (resource : dict) (h : Heap) :
  (resource !! "name" = None →
   run (_set_properties resource) h
   = (Return (),
      mkHeap (mkVariable (name (self h)) (config (self h)) resource) (sent h)))
  ∧ (∀ full n,
       resource !! "name" = Some full →
       variable_name_from_full_name full = Return n →
       run (_set_properties resource) h
       = (Return (),
          mkHeap (mkVariable (Some n) (config (self h)) (delete "name" resource))
            (sent h)))
  ∧ (let resource : dict :=
       {[ "name" := PyStr "projects/p/configs/c/variables/v2";
          "text" := PyStr "x" ]} in
     let h' := mkHeap (mkVariable (Some "v2") (config (self h)) {[ "text" := PyStr "x" ]})
                 (sent h) in
     run (@_set_properties spec_helpers resource) h = (Return (), h')
     ∧ run value h' = (Return PyNone, h')).
Proof.
  split; [| split].
  - intros Hname. by rewrite run_set_properties, Hname.
  - intros full n Hname Hparse. by rewrite run_set_properties, Hname, Hparse.
  - intros resource' h'. split; [|done].
    by rewrite run_set_properties.
Qed.

(** A variable that holds a [value] absorbs the response of the
    specification's example. *)
Lemma set_properties_replaces_witness :
  let cfg := stub_config (Raise NotFound) in
  let h := (run (value_setter (bytes "secret")) (mkHeap (__init__ (Some "v1") cfg) [])).2 in
  let resource : dict :=
    {[ "name" := PyStr "projects/p/configs/c/variables/v2"; "text" := PyStr "x" ]} in
  _properties (self h) = {[ "value" := bytes "secret" ]}
  ∧ run (@_set_properties spec_helpers resource) h
    = (Return (), mkHeap (mkVariable (Some "v2") cfg {[ "text" := PyStr "x" ]}) [])
  ∧ run (@_set_properties spec_helpers {[ "state" := PyStr "UPDATED" ]}) h
    = (Return (), mkHeap (mkVariable (Some "v1") cfg {[ "state" := PyStr "UPDATED" ]}) []).
Proof.
  intros cfg h resource. split; [reflexivity | split].
  - apply (proj1 (proj2 (@set_properties_replaces spec_helpers resource h))
             (PyStr "projects/p/configs/c/variables/v2") "v2");
      reflexivity.
  - apply (proj1 (@set_properties_replaces spec_helpers {[ "state" := PyStr "UPDATED" ]} h)).
    reflexivity.
Defined.

(** *** The remote operations against stubs *)

(** [create] on a variable with [text="hello"]: against a connection that
    raises [Conflict], and against one that answers with the created
    resource. *)
Lemma create_conflict_or_absorb_witness :
  let resp : dict :=
    {[ "name" := PyStr "projects/p/configs/c/variables/v1";
       "text" := PyStr "hello"; "state" := PyStr "UPDATED" ]} in
  let start answer :=
    (run (text_setter (PyStr "hello"))
       (mkHeap (__init__ (Some "v1") (stub_config answer)) [])).2 in
  let r := Request.make POST "/projects/p/configs/c/variables"
             (Some (<["text" := PyStr "hello"]>
                      {[ "name" := PyStr "projects/p/configs/c/variables/v1" ]}))
             None in
  run (@create spec_helpers None) (start (Raise Conflict))
  = (Return false, mkHeap (self (start (Raise Conflict))) [r])
  ∧ run (@create spec_helpers None) (start (Return resp))
    = (Return true,
       mkHeap (mkVariable (Some "v1") (stub_config (Return resp))
                 {[ "text" := PyStr "hello"; "state" := PyStr "UPDATED" ]}) [r]).
Proof.
  intros resp start r. split.
  - apply (proj1 (@create_conflict_or_absorb spec_helpers None
                    (start (Raise Conflict)) _ eq_refl)).
    reflexivity.
  - apply (proj2 (@create_conflict_or_absorb spec_helpers None
                    (start (Return resp)) _ eq_refl) resp);
      reflexivity.
Defined.

(** [update] and [reload] against a connection that raises [NotFound]. *)
Lemma update_swallows_reload_raises_witness :
  let h :=
    (run (text_setter (PyStr "hello"))
       (mkHeap (__init__ (Some "v1") (stub_config (Raise NotFound))) [])).2 in
  let data : dict :=
    <["text" := PyStr "hello"]>
      {[ "name" := PyStr "projects/p/configs/c/variables/v1" ]} in
  let p := "/projects/p/configs/c/variables/v1" in
  run (@update spec_helpers None) h
  = (Return false, mkHeap (self h) [Request.make PUT p (Some data) None])
  ∧ run (@reload spec_helpers None) h
    = (Raise NotFound, mkHeap (self h) [Request.make GET p None None]).
Proof.
  intros h data p. split.
  - apply (proj1 (@update_swallows_reload_raises spec_helpers None h "v1"
                    eq_refl ltac:(discriminate)) data);
      reflexivity.
  - apply (proj2 (@update_swallows_reload_raises spec_helpers None h "v1"
                    eq_refl ltac:(discriminate))).
    reflexivity.
Defined.

(** [exists] against a connection that answers, and against one that
    raises [NotFound]. *)
Lemma exists_frame_witness :
  let start answer := mkHeap (__init__ (Some "v1") (stub_config answer)) [] in
  let found : outcome dict :=
    Return {[ "name" := PyStr "projects/p/configs/c/variables/v1" ]} in
  let r := Request.make GET "/projects/p/configs/c/variables/v1" None
             (Some {[ "fields" := PyStr "name" ]}) in
  run (exists_ None) (start found)
  = (Return true, mkHeap (self (start found)) [r])
  ∧ run (exists_ None) (start (Raise NotFound))
    = (Return false, mkHeap (self (start (Raise NotFound))) [r]).
Proof.
  intros start found r. split.
  - apply (proj1 (proj2 (exists_frame None (start found)) "v1"
                    eq_refl ltac:(discriminate))
             {[ "name" := PyStr "projects/p/configs/c/variables/v1" ]}).
    reflexivity.
  - apply (proj2 (proj2 (exists_frame None (start (Raise NotFound))) "v1"
                    eq_refl ltac:(discriminate))).
    reflexivity.
Defined.

(** A response that carries both payload fields, and the payload built
    from the variable parsed out of it. *)
Lemma get_payload_text_precedence_witness :
  let resource : dict :=
    {[ "name" := PyStr "projects/p/configs/c/variables/v1";
       "text" := PyStr "a"; "value" := PyStr "Yg==" ]} in
  let cfg := stub_config (Raise NotFound) in
  let v := mkVariable (Some "v1") cfg {[ "text" := PyStr "a"; "value" := PyStr "Yg==" ]} in
  @from_api_repr spec_helpers resource cfg = Return v
  ∧ ∃ data : dict,
      run _get_payload (mkHeap v []) = (Return data, mkHeap v [])
      ∧ data !! "name" = Some (PyStr "projects/p/configs/c/variables/v1")
      ∧ data !! "text" = Some (PyStr "a")
      ∧ data !! "value" = None
      ∧ dom data = {[ "name"; "text" ]}.
Proof.
  intros resource cfg v. split; [reflexivity|].
  apply (get_payload_text_precedence (mkHeap v []) "v1" (PyStr "a") (PyStr "Yg==")
           eq_refl ltac:(discriminate) eq_refl eq_refl).
Defined.

(** *** At most one payload field *)

Section one_payload.
Context `{Helpers}.

Lemma has_both_insert_text (d : dict) (t : pyval) :
  dict_in "value" d = false → has_both (<["text" := t]> d) = false.
Proof.
  intros Hv. unfold has_both, dict_in in *.
  rewrite lookup_insert_eq, lookup_insert_ne by done.
  by destruct (d !! "value").
Qed.

Lemma has_both_insert_value (d : dict) (b : pyval) :
  dict_in "text" d = false → has_both (<["value" := b]> d) = false.
Proof.
  intros Ht. unfold has_both, dict_in in *.
  rewrite lookup_insert_ne by done.
  by destruct (d !! "text").
Qed.

Lemma text_setter_one_payload (cfg : Config.t) (t : pyval) (h : Heap) :
  one_payload cfg h → one_payload cfg (run (text_setter t) h).2.
Proof.
  intros [Hcfg Hinv]. rewrite run_text_setter.
  destruct (dict_in "value" (_properties (self h))) eqn:Hv; [done|].
  split; [done|]. by apply has_both_insert_text.
Qed.

Lemma value_setter_one_payload (cfg : Config.t) (b : pyval) (h : Heap) :
  one_payload cfg h → one_payload cfg (run (value_setter b) h).2.
Proof.
  intros [Hcfg Hinv]. rewrite run_value_setter.
  destruct (dict_in "text" (_properties (self h))) eqn:Ht; [done|].
  split; [done|]. by apply has_both_insert_value.
Qed.

Lemma set_properties_one_payload (cfg : Config.t) (resource : dict) (h : Heap) :
  has_both resource = false → config (self h) = cfg →
  one_payload cfg (run (_set_properties resource) h).2.
Proof.
  intros Hres Hcfg. split.
  - by rewrite set_properties_config.
  - destruct (has_both (_properties (self (run (_set_properties resource) h).2)))
      eqn:Hboth; [|done].
    apply set_properties_has_both in Hboth. congruence.
Qed.

(** Absorbing inside [create], [update] and [reload]: the result of
    [_set_properties] is passed on, with [True] for the value. *)
Lemma absorbed_one_payload {A} (cfg : Config.t) (resp : dict) (h : Heap) (a : A) :
  has_both resp = false → config (self h) = cfg →
  one_payload cfg
    (match run (_set_properties resp) h with
     | (Return _, h') => (Return a, h')
     | (Raise e, h') => (Raise e, h')
     end).2.
Proof.
  intros Hres Hcfg.
  pose proof (set_properties_one_payload cfg resp h Hres Hcfg) as Hinv.
  by destruct (run (_set_properties resp) h) as [[[]|e] h'].
Qed.

Lemma create_one_payload (cfg : Config.t) (c : option Client) (h : Heap) :
  answers_one_payload (client_of cfg c) →
  one_payload cfg h → one_payload cfg (run (create c) h).2.
Proof.
  intros Hans [Hcfg Hinv]. rewrite run_create.
  destruct (run _get_payload h) as [[data|e] h0]; [|done].
  cbn zeta. rewrite Hcfg.
  destruct (_connection _ _ _) as [resp|e] eqn:Hresp.
  - apply absorbed_one_payload; [by eapply Hans | done].
  - by destruct (is_Conflict e).
Qed.

Lemma update_one_payload (cfg : Config.t) (c : option Client) (h : Heap) :
  answers_one_payload (client_of cfg c) →
  one_payload cfg h → one_payload cfg (run (update c) h).2.
Proof.
  intros Hans [Hcfg Hinv]. rewrite run_update.
  destruct (run _get_payload h) as [[data|e] h0]; [|done].
  destruct (run path h) as [[p|e] h1].
  - cbn zeta. rewrite Hcfg.
    destruct (_connection _ _ _) as [resp|e] eqn:Hresp.
    + apply absorbed_one_payload; [by eapply Hans | done].
    + by destruct (is_NotFound e).
  - by destruct (is_NotFound e).
Qed.

Lemma reload_one_payload (cfg : Config.t) (c : option Client) (h : Heap) :
  answers_one_payload (client_of cfg c) →
  one_payload cfg h → one_payload cfg (run (reload c) h).2.
Proof.
  intros Hans [Hcfg Hinv]. rewrite run_reload.
  destruct (run path h) as [[p|e] h1]; [|done].
  cbn zeta. rewrite Hcfg.
  destruct (_connection _ _ _) as [resp|e] eqn:Hresp; [|done].
  apply set_properties_one_payload; [by eapply Hans | done].
Qed.

Lemma exists_one_payload (cfg : Config.t) (c : option Client) (h : Heap) :
  one_payload cfg h → one_payload cfg (run (exists_ c) h).2.
Proof.
  intros [Hcfg Hinv]. unfold one_payload.
  assert (self (run (exists_ c) h).2 = self h) as ->; [|done].
  rewrite run_exists.
  destruct (run path h) as [[p|e] h'].
  - cbn zeta. destruct (_connection _ _ _) as [resp|e]; [done|].
    by destruct (is_NotFound e).
  - by destruct (is_NotFound e).
Qed.

Lemma run_discard {A} (m : M A) (h : Heap) :
  (run (m;; mret ()) h).2 = (run m h).2.
Proof. rewrite run_bind. by destruct (run m h) as [[a|e] h']. Qed.

(** One operation keeps the state. *)
Lemma after_one_payload (cfg : Config.t) (o : op) (h : Heap) :
  absorbs_one_payload cfg o →
  one_payload cfg h → one_payload cfg (after h o).
Proof.
  intros Hop Hinv. unfold after.
  destruct o as [t|b|resource|c|c|c|c]; cbn [perform absorbs_one_payload] in *.
  - by apply text_setter_one_payload.
  - by apply value_setter_one_payload.
  - destruct Hinv as [Hcfg _]. by apply set_properties_one_payload.
  - rewrite run_discard. by apply create_one_payload.
  - rewrite run_discard. by apply update_one_payload.
  - rewrite run_discard. by apply exists_one_payload.
  - by apply reload_one_payload.
Qed.

Lemma run_ops_one_payload (cfg : Config.t) (ops : list op) (h : Heap) :
  Forall (absorbs_one_payload cfg) ops →
  one_payload cfg h → one_payload cfg (run_ops ops h).
Proof.
  intros Hops. revert h.
  induction Hops as [|o ops Ho _ IH]; intros h Hinv; [done|].
  cbn. apply IH. by apply after_one_payload.
Qed.

(** Against connections that never answer with both fields, whatever they
    are asked: the mapping never holds both keys. *)
Lemma one_payload_if_answers_exclusive (ops : list op) (h : Heap) :
  has_both (_properties (self h)) = false →
  Forall (absorbs_one_payload (config (self h))) ops →
  ∀ k : nat, has_both (_properties (self (run_ops (take k ops) h))) = false.
Proof.
  intros Hinv Hops k.
  apply (run_ops_one_payload (config (self h)) (take k ops) h); [|done].
  by apply Forall_take.
Qed.

(** What each operation does to the pair of payload keys. *)

Lemma text_setter_has_both (t : pyval) (h : Heap) :
  has_both (_properties (self (run (text_setter t) h).2))
  = has_both (_properties (self h)).
Proof.
  rewrite run_text_setter.
  destruct (dict_in "value" (_properties (self h))) eqn:Hv; [done|].
  cbn [snd self _properties]. rewrite has_both_insert_text by done.
  unfold has_both. rewrite Hv. by rewrite andb_false_r.
Qed.

Lemma value_setter_has_both (b : pyval) (h : Heap) :
  has_both (_properties (self (run (value_setter b) h).2))
  = has_both (_properties (self h)).
Proof.
  rewrite run_value_setter.
  destruct (dict_in "text" (_properties (self h))) eqn:Ht; [done|].
  cbn [snd self _properties]. rewrite has_both_insert_value by done.
  unfold has_both. by rewrite Ht.
Qed.

Lemma set_properties_has_both_eq (resource : dict) (h : Heap) :
  has_both (_properties (self (run (_set_properties resource) h).2))
  = name_parses resource && has_both resource.
Proof.
  rewrite run_set_properties. unfold name_parses.
  destruct (resource !! "name") as [full|]; [|done].
  destruct (variable_name_from_full_name full); cbn; [|done].
  apply has_both_delete_name.
Qed.

Lemma absorbed_ending {A} (resp : dict) (h : Heap) (a : A) :
  (match run (_set_properties resp) h with
   | (Return _, h') => (Return a, h')
   | (Raise e, h') => (Raise e, h')
   end).2 = (run (_set_properties resp) h).2.
Proof. by destruct (run (_set_properties resp) h) as [[[]|e] h']. Qed.

(** [absorbed_by] names the body that the operation passes to
    [_set_properties]: the object after the operation is the object after
    absorbing that body, and an operation that absorbs nothing leaves the
    name and every key but its own alone. *)
Lemma absorbed_by_effect (o : op) (h : Heap) :
  match absorbed_by o h with
  | Some d =>
      ∃ h1, self h1 = self h
            ∧ self (after h o) = self (run (_set_properties d) h1).2
  | None =>
      name (self (after h o)) = name (self h)
      ∧ ∀ k, k ≠ "text" → k ≠ "value" →
          _properties (self (after h o)) !! k = _properties (self h) !! k
  end.
Proof.
  unfold after.
  destruct o as [t|b|resource|c|c|c|c]; cbn [perform absorbed_by client_of];
    rewrite ?run_discard.
  - rewrite run_text_setter.
    destruct (dict_in "value" (_properties (self h))); [done|].
    split; [done|]. intros k Hk _. cbn. by rewrite lookup_insert_ne.
  - rewrite run_value_setter.
    destruct (dict_in "text" (_properties (self h))); [done|].
    split; [done|]. intros k _ Hk. cbn. by rewrite lookup_insert_ne.
  - by exists h.
  - rewrite run_create.
    destruct (run _get_payload h) as [[data|e] h0]; [|done].
    cbn zeta. destruct (_connection _ _ _) as [resp|e].
    + rewrite absorbed_ending.
      eexists (sending _ h). split; [done | reflexivity].
    + by destruct (is_Conflict e).
  - rewrite run_update.
    destruct (run _get_payload h) as [[data|e] h0]; [|done].
    destruct (run path h) as [[p|e] h1].
    + cbn zeta. destruct (_connection _ _ _) as [resp|e].
      * rewrite absorbed_ending.
      eexists (sending _ h). split; [done | reflexivity].
      * by destruct (is_NotFound e).
    + by destruct (is_NotFound e).
  - rewrite run_exists.
    destruct (run path h) as [[p|e] h1].
    + cbn zeta. destruct (_connection _ _ _) as [resp|e]; [done|].
      by destruct (is_NotFound e).
    + by destruct (is_NotFound e).
  - rewrite run_reload.
    destruct (run path h) as [[p|e] h1]; [|done].
    cbn zeta. destruct (_connection _ _ _) as [resp|e]; [|done].
    eexists (sending _ h). split; [done | reflexivity].
Qed.

(** One operation: the mapping holds both keys afterwards exactly when a
    body with both was stored, or nothing was absorbed and it held both
    before. *)
Lemma after_has_both (o : op) (h : Heap) :
  has_both (_properties (self (after h o)))
  = match absorbed_by o h with
    | Some d => name_parses d && has_both d
    | None => has_both (_properties (self h))
    end.
Proof.
  unfold after.
  destruct o as [t|b|resource|c|c|c|c]; cbn [perform absorbed_by client_of];
    rewrite ?run_discard.
  - apply text_setter_has_both.
  - apply value_setter_has_both.
  - apply set_properties_has_both_eq.
  - rewrite run_create.
    destruct (run _get_payload h) as [[data|e] h0]; [|done].
    cbn zeta. destruct (_connection _ _ _) as [resp|e].
    + rewrite absorbed_ending. apply set_properties_has_both_eq.
    + by destruct (is_Conflict e).
  - rewrite run_update.
    destruct (run _get_payload h) as [[data|e] h0]; [|done].
    destruct (run path h) as [[p|e] h1].
    + cbn zeta. destruct (_connection _ _ _) as [resp|e].
      * rewrite absorbed_ending. apply set_properties_has_both_eq.
      * by destruct (is_NotFound e).
    + by destruct (is_NotFound e).
  - rewrite run_exists.
    destruct (run path h) as [[p|e] h1].
    + cbn zeta. destruct (_connection _ _ _) as [resp|e]; [done|].
      by destruct (is_NotFound e).
    + by destruct (is_NotFound e).
  - rewrite run_reload.
    destruct (run path h) as [[p|e] h1]; [|done].
    cbn zeta. destruct (_connection _ _ _) as [resp|e]; [|done].
    apply set_properties_has_both_eq.
Qed.

Lemma after_has_both_stored (o : op) (h : Heap) (d : dict) :
  stored_by o h = Some d →
  has_both (_properties (self (after h o))) = has_both d.
Proof.
  unfold stored_by. rewrite after_has_both.
  destruct (absorbed_by o h) as [d'|]; [|done].
  destruct (name_parses d') eqn:Hparse; [|done].
  by intros [= <-].
Qed.

Lemma after_has_both_not_stored (o : op) (h : Heap) :
  stored_by o h = None →
  has_both (_properties (self h)) = false →
  has_both (_properties (self (after h o))) = false.
Proof.
  unfold stored_by. rewrite after_has_both.
  destruct (absorbed_by o h) as [d'|]; [|done].
  by destruct (name_parses d').
Qed.

Lemma from_api_repr_has_both (resource : dict) (cfg : Config.t) (v : variable) :
  from_api_repr resource cfg = Return v →
  has_both (_properties v) = has_both resource.
Proof.
  unfold from_api_repr. intros Hv.
  destruct (variable_name_from_full_name (dict_get "name" resource))
    as [n|e] eqn:Hn; [|done].
  rewrite run_set_properties in Hv. unfold dict_get in Hn.
  destruct (resource !! "name") as [full|].
  - rewrite Hn in Hv. injection Hv as <-. apply has_both_delete_name.
  - by injection Hv as <-.
Qed.

Lemma one_payload_iff_stored (ops : list op) (h : Heap) :
  has_both (_properties (self h)) = false →
  (∀ k : nat, has_both (_properties (self (run_ops (take k ops) h))) = false)
  ↔ Forall (λ d, has_both d = false) (stored_bodies ops h).
Proof.
  revert h. induction ops as [|o ops IH]; intros h Hinv.
  - split; [by constructor|]. intros _ k. by rewrite take_nil.
  - split.
    + intros Hall.
      assert (has_both (_properties (self (after h o))) = false) as Hstep
        by exact (Hall 1%nat).
      assert (Forall (λ d, has_both d = false) (stored_bodies ops (after h o)))
        as Htail.
      { apply IH; [done|]. intros k. exact (Hall (S k)). }
      cbn [stored_bodies]. destruct (stored_by o h) as [d|] eqn:Hst; [|done].
      constructor; [|done]. by rewrite <- (after_has_both_stored o h d Hst).
    + intros Hbodies [|k]; [done|].
      cbn [stored_bodies] in Hbodies.
      assert (has_both (_properties (self (after h o))) = false
              ∧ Forall (λ d, has_both d = false) (stored_bodies ops (after h o)))
        as [Hstep Htail].
      { destruct (stored_by o h) as [d|] eqn:Hst.
        - apply Forall_cons in Hbodies as [Hd Htail].
          split; [|done]. by rewrite (after_has_both_stored o h d Hst).
        - split; [|done]. by apply after_has_both_not_stored. }
      exact (proj2 (IH (after h o) Hstep) Htail k).
Qed.

(** C2 (amended).  Start from a variable whose mapping does not hold both
    [text] and [value] and apply any sequence of operations (the two
    setters, absorbing a resource, [create], [update], [exists], [reload],
    each allowed to raise).  The mapping holds at most one of the two keys
    after every prefix of the sequence exactly when none of the bodies
    stored on the way (a resource absorbed directly or answered to the
    request an operation really sent, its [name] absent or parsed) carries
    both fields; what the connection would answer to requests that are
    never sent does not matter.  A stored body with both fields leaves both
    keys in the mapping, from any state, and a variable built by
    [from_api_repr] holds both keys exactly when its resource does. *)
Theorem one_payload_invariant (ops : list op) (h : Heap) :
  has_both (_properties (self h)) = false →
  ((∀ k : nat, has_both (_properties (self (run_ops (take k ops) h))) = false)
   ↔ Forall (λ d, has_both d = false) (stored_bodies ops h))
  ∧ (∀ (h' : Heap) (o : op) (d : dict),
       stored_by o h' = Some d → has_both d = true →
       has_both (_properties (self (after h' o))) = true)
  ∧ (∀ (resource : dict) (cfg : Config.t) (v : variable),
       from_api_repr resource cfg = Return v →
       has_both (_properties v) = has_both resource).
Proof.
  intros Hinv. split; [| split].
  - by apply one_payload_iff_stored.
  - intros h' o d Hst Hd. by rewrite (after_has_both_stored o h' d Hst).
  - apply from_api_repr_has_both.
Qed.

End one_payload.

(** C2, as the claim states it, fails: a response that carries both
    payload fields leaves both keys in the mapping whichever way it is
    absorbed: through [_set_properties], through
    [from_api_repr], or through [reload]. *)
Lemma absorb_both_fields :
  let resource : dict :=
    {[ "name" := PyStr "projects/p/configs/c/variables/v1";
       "text" := PyStr "a"; "value" := PyStr "Yg==" ]} in
  let cfg := stub_config (Return resource) in
  let h0 := mkHeap (__init__ (Some "v1") cfg) [] in
  let both : dict := {[ "text" := PyStr "a"; "value" := PyStr "Yg==" ]} in
  has_both (_properties (self h0)) = false
  ∧ _properties (self (run (@_set_properties spec_helpers resource) h0).2) = both
  ∧ @from_api_repr spec_helpers resource cfg = Return (mkVariable (Some "v1") cfg both)
  ∧ _properties (self (run (@reload spec_helpers None) h0).2) = both
  ∧ dict_in "text" both = true
  ∧ dict_in "value" both = true.
Proof. by repeat split. Qed.

(** A session against a server that holds a body with both fields behind
    GET and answers POST and PUT with the binary variable alone.  The
    session creates, probes with [exists] (whose answer is not absorbed)
    and updates, but never reloads: no body with both fields is stored, so
    the mapping never holds both keys.  With a [reload] in the sequence the
    body with both fields is stored. *)
Lemma one_payload_invariant_witness :
  let binary : dict :=
    {[ "name" := PyStr "projects/p/configs/c/variables/v1";
       "value" := PyStr "c2VjcmV0"; "state" := PyStr "UPDATED" ]} in
  let both : dict :=
    {[ "name" := PyStr "projects/p/configs/c/variables/v1";
       "text" := PyStr "a"; "value" := PyStr "Yg==" ]} in
  let server : Client :=
    {| _connection := λ _ r,
         match Request.method r with
         | GET => Return both
         | POST | PUT => Return binary
         end |} in
  let cfg := Config.make "projects/p/configs/c" "/projects/p/configs/c" server in
  let h0 := mkHeap (__init__ (Some "v1") cfg) [] in
  let ops :=
    [ SetValue (bytes "secret"); SetText (PyStr "hello"); Create None;
      Exists None; Absorb {[ "text" := PyStr "x" ]}; Update None;
      SetValue (bytes "late") ] in
  (@stored_bodies spec_helpers ops h0 = [binary; {[ "text" := PyStr "x" ]}; binary]
   ∧ ∀ k : nat,
       has_both (_properties (self (@run_ops spec_helpers (take k ops) h0))) = false)
  ∧ (@stored_by spec_helpers (Reload None) h0 = Some both
     ∧ has_both (_properties (self (@after spec_helpers h0 (Reload None)))) = true).
Proof.
  intros binary both server cfg h0 ops.
  pose proof (@one_payload_invariant spec_helpers ops h0 eq_refl)
    as (Hiff & Hstored & _).
  split; split; [reflexivity | | reflexivity |].
  - apply (proj2 Hiff). by repeat constructor.
  - by apply (Hstored h0 (Reload None) both).
Defined.

(** *** The value property *)

Lemma run_value (h : Heap) :
  run value h =
  match dict_get "value" (_properties (self h)) with
  | PyNone => (Return PyNone, h)
  | x =>
      match base64.b64decode x with
      | Return b => (Return (PyBytes b), h)
      | Raise e => (Raise e, h)
      end
  end.
Proof.
  unfold value. rewrite run_bind. cbn [run get_self].
  destruct (dict_get "value" (_properties (self h))) as [|b|n|s|b] eqn:Hx;
    try done; rewrite run_bind; unfold run at 1, lift;
    by destruct (base64.b64decode _).
Qed.

(** What the getter returns right after the setter stored bytes [B]: the
    base64 decoding of [B] itself, since the setter stores [B] as it is. *)
Lemma value_after_value_setter (B : list byte) (h : Heap) :
  dict_in "text" (_properties (self h)) = false →
  let h' := mkHeap (mkVariable (name (self h)) (config (self h))
                      (<["value" := PyBytes B]> (_properties (self h)))) (sent h) in
  run (value_setter (PyBytes B)) h = (Return (), h')
  ∧ run value h' =
    match base64.a2b_base64 B with
    | Return b => (Return (PyBytes b), h')
    | Raise e => (Raise e, h')
    end.
Proof.
  intros Ht h'. split.
  - by rewrite run_value_setter, Ht.
  - rewrite run_value. unfold dict_get. cbn [self _properties h'].
    by rewrite lookup_insert_eq.
Qed.

(** The path that does go through base64: the payload of a variable that
    holds bytes [B] carries [base64(B)], and a variable that has absorbed a
    resource with that [value] reads [B] back. *)
Lemma value_through_the_wire `{Helpers} (B : list byte) (resource : dict) (h h' : Heap) :
  resource !! "value" = Some (PyStr (base64.decode_utf8 (base64.b2a_base64 B))) →
  run (_set_properties resource) h = (Return (), h') →
  run value h' = (Return (PyBytes B), h').
Proof.
  intros Hval Habs. rewrite run_set_properties in Habs.
  assert (_properties (self h') !! "value"
          = Some (PyStr (base64.decode_utf8 (base64.b2a_base64 B)))) as Hprop.
  { destruct (resource !! "name") as [full|].
    - destruct (variable_name_from_full_name full); [|done].
      injection Habs as <-. cbn. by rewrite lookup_delete_ne.
    - injection Habs as <-. done. }
  rewrite run_value. unfold dict_get. rewrite Hprop.
  by rewrite (proj2 (base64_facts.b64decode_b64encode B)).
Qed.

(** C1, on the code.  On a fresh variable the setter stores [b"abcd"] as
    it is, and the getter then decodes it as if it were base64: it returns
    the three bytes [69 b7 1d], not [b"abcd"].  After [b"hello"], which is
    no base64 text, the getter raises [binascii.Error]. *)
Theorem value_setter_then_getter :
  let cfg := stub_config (Raise NotFound) in
  let h0 := mkHeap (__init__ (Some "v1") cfg) [] in
  let stored B := mkHeap (mkVariable (Some "v1") cfg {[ "value" := B ]}) [] in
  (run (value_setter (bytes "abcd")) h0 = (Return (), stored (bytes "abcd"))
   ∧ run value (stored (bytes "abcd"))
     = (Return (PyBytes [x69; xb7; x1d]), stored (bytes "abcd"))
   ∧ PyBytes [x69; xb7; x1d] ≠ bytes "abcd")
  ∧ (run (value_setter (bytes "hello")) h0 = (Return (), stored (bytes "hello"))
     ∧ run value (stored (bytes "hello"))
       = (Raise BinasciiError, stored (bytes "hello"))).
Proof. by repeat split. Qed.

(** *** Examples *)

Example b64encode_hello :
  base64.b64encode (bytes "hello") = Return (list_byte_of_string "aGVsbG8=").
Proof. reflexivity. Qed.

Example b64encode_my_variable_value :
  base64.b64encode (bytes "my-variable-value")
  = Return (list_byte_of_string "bXktdmFyaWFibGUtdmFsdWU=").
Proof. reflexivity. Qed.

Example b64decode_padded :
  base64.b64decode (PyStr "aGVsbG8=") = Return (list_byte_of_string "hello").
Proof. reflexivity. Qed.

Example b64decode_skips_newline :
  base64.b64decode (PyBytes ("a" :: "G" :: "V" :: x0a :: list_byte_of_string "sbG8="))%byte
  = Return (list_byte_of_string "hello").
Proof. reflexivity. Qed.

Example b64decode_bad_length :
  base64.b64decode (bytes "hello") = Raise BinasciiError.
Proof. reflexivity. Qed.

Example variable_name_from_full_name_v2 :
  variable_name_from_full_name_model (PyStr "projects/p/configs/c/variables/v2")
  = Return "v2".
Proof. reflexivity. Qed.

Example variable_name_from_full_name_nested :
  variable_name_from_full_name_model
    (PyStr "projects/my-proj/configs/my-config/variables/another/var/name")
  = Return "another/var/name".
Proof. reflexivity. Qed.

(** A value set locally, created on a server that echoes the resource,
    reads back as it was set. *)
Example value_after_create :
  let sent_value : dict :=
    {[ "name" := PyStr "projects/p/configs/c/variables/v1";
       "value" := PyStr "aGVsbG8=" ]} in
  let h0 := mkHeap (__init__ (Some "v1") (stub_config (Return sent_value))) [] in
  (run (value_setter (bytes "hello");; @create spec_helpers None;; value) h0).1
  = Return (bytes "hello").
Proof. reflexivity. Qed.

(** * Further properties of the class *)

(** ** Reading never changes anything *)

Lemma run_text (h : Heap) :
  run text h = (Return (dict_get "text" (_properties (self h))), h).
Proof. reflexivity. Qed.

Lemma run_state (h : Heap) :
  run state h
  = (Return (default (PyStr STATE_UNSPECIFIED) (_properties (self h) !! "state")), h).
Proof. reflexivity. Qed.

Lemma run_value_pure (h : Heap) : (run value h).2 = h.
Proof.
  rewrite run_value.
  destruct (dict_get "value" (_properties (self h))) as [|b|n|s|b];
    try done; by destruct (base64.b64decode _).
Qed.

Lemma run_full_name_pure (h : Heap) : (run full_name h).2 = h.
Proof.
  destruct (falsy (name (self h))) eqn:Hn.
  - by rewrite run_full_name_missing.
  - apply falsy_false in Hn as (n & Hn & Hne). by rewrite (run_full_name h n).
Qed.

(** X1.  The getters ([text], [value], [state], [full_name], [path],
    [client]) and [_get_payload] leave the heap as they found it, whether
    they return or raise: the object is unchanged and no request is
    sent. *)
Theorem getters_are_pure (h : Heap) :
  (run text h).2 = h ∧ (run value h).2 = h ∧ (run state h).2 = h
  ∧ (run full_name h).2 = h ∧ (run path h).2 = h ∧ (run client h).2 = h
  ∧ (run _get_payload h).2 = h.
Proof.
  split; [done|]. split; [apply run_value_pure|]. split; [done|].
  split; [apply run_full_name_pure|]. split; [apply run_path_pure|].
  split; [done|]. apply run_get_payload_pure.
Qed.

(** ** The text property *)

(** X2.  When the mapping holds no [value] key, setting [text] to [t] and
    reading [text] returns [t]; the setter changes the [text] entry only
    (name, config, every other key and the requests sent are as before),
    and a second setter call overwrites the first. *)
Theorem text_round_trip (t : pyval) (h : Heap) :
  dict_in "value" (_properties (self h)) = false →
  let h' := mkHeap (mkVariable (name (self h)) (config (self h))
                      (<["text" := t]> (_properties (self h)))) (sent h) in
  run (text_setter t;; text) h = (Return t, h')
  ∧ (∀ k, k ≠ "text" → _properties (self h') !! k = _properties (self h) !! k)
  ∧ (∀ t0, run (text_setter t0;; text_setter t) h = (Return (), h')).
Proof.
  intros Hv h'. split; [| split].
  - rewrite run_bind, run_text_setter, Hv. fold h'.
    rewrite run_text. unfold dict_get. cbn [self _properties h'].
    by rewrite lookup_insert_eq.
  - intros k Hk. cbn [self _properties h']. by rewrite lookup_insert_ne.
  - intros t0. rewrite run_bind, run_text_setter, Hv.
    rewrite run_text_setter. cbn [self _properties name config sent].
    assert (dict_in "value" (<["text" := t0]> (_properties (self h))) = false) as ->.
    { apply dict_in_false. rewrite lookup_insert_ne by done. by apply dict_in_false. }
    unfold h'. by rewrite insert_insert_eq.
Qed.

Lemma text_round_trip_witness :
  let cfg := stub_config (Raise NotFound) in
  let h := mkHeap (mkVariable (Some "v1") cfg {[ "state" := PyStr "UPDATED" ]}) [] in
  let h' := mkHeap (mkVariable (Some "v1") cfg
                      {[ "text" := PyStr "hello"; "state" := PyStr "UPDATED" ]}) [] in
  run (text_setter (PyStr "hello");; text) h = (Return (PyStr "hello"), h')
  ∧ run (text_setter (PyStr "draft");; text_setter (PyStr "hello")) h = (Return (), h').
Proof.
  intros cfg h h'.
  pose proof (text_round_trip (PyStr "hello") h eq_refl) as (Hget & _ & Htwice).
  split; [exact Hget | exact (Htwice (PyStr "draft"))].
Defined.

(** ** The value property through base64 *)

Lemma run_value_encoded (B : list byte) (h : Heap) :
  _properties (self h) !! "value"
  = Some (PyStr (base64.decode_utf8 (base64.b2a_base64 B))) →
  run value h = (Return (PyBytes B), h).
Proof.
  intros Hprop. rewrite run_value. unfold dict_get. rewrite Hprop.
  by rewrite (proj2 (base64_facts.b64decode_b64encode B)).
Qed.

(** X3.  For every byte sequence [B]: a variable that has absorbed any
    resource whose [value] field is the base64 text of [B] returns [B]
    from the [value] getter. *)
Theorem value_getter_decodes_absorbed `{Helpers} (B : list byte) (resource : dict)
    (h h' : Heap) :
  resource !! "value" = Some (PyStr (base64.decode_utf8 (base64.b2a_base64 B))) →
  run (_set_properties resource) h = (Return (), h') →
  run value h' = (Return (PyBytes B), h').
Proof.
  intros Hval Habs. apply run_value_encoded.
  rewrite run_set_properties in Habs.
  destruct (resource !! "name") as [full|].
  - destruct (variable_name_from_full_name full); [|done].
    injection Habs as <-. cbn. by rewrite lookup_delete_ne.
  - by injection Habs as <-.
Qed.

Lemma value_getter_decodes_absorbed_witness :
  let cfg := stub_config (Raise NotFound) in
  let resource : dict :=
    {[ "name" := PyStr "projects/p/configs/c/variables/v1";
       "value" := PyStr "bXktdmFyaWFibGUtdmFsdWU=" ]} in
  let h' := mkHeap (mkVariable (Some "v1") cfg
                      {[ "value" := PyStr "bXktdmFyaWFibGUtdmFsdWU=" ]}) [] in
  run value h' = (Return (bytes "my-variable-value"), h').
Proof.
  intros cfg resource h'.
  exact (@value_getter_decodes_absorbed spec_helpers
           (list_byte_of_string "my-variable-value") resource
           (mkHeap (__init__ (Some "v0") cfg) []) h' eq_refl eq_refl).
Defined.

(** X4.  For every byte sequence [B]: on a named variable without [text],
    setting [value] to [B], creating the variable on a server that answers
    with the resource it was sent, and then reading [value] returns [B].
    The request carries the base64 text of [B], and that text is what the
    mapping holds afterwards. *)
Theorem value_round_trip_through_create `{Helpers} (B : list byte)
    (c : option Client) (h : Heap) (n n' : string) :
  name (self h) = Some n → n ≠ "" →
  dict_in "text" (_properties (self h)) = false →
  let fn := Config.full_name (config (self h)) +:+ "/variables/" +:+ n in
  let b64 := PyStr (base64.decode_utf8 (base64.b2a_base64 B)) in
  let data : dict := <["value" := b64]> {[ "name" := PyStr fn ]} in
  let r := Request.make POST (Config.path (config (self h)) +:+ "/variables")
             (Some data) None in
  _connection (client_of (config (self h)) c) (sent h) r = Return data →
  variable_name_from_full_name (PyStr fn) = Return n' →
  run (value_setter (PyBytes B);; create c;; value) h
  = (Return (PyBytes B),
     mkHeap (mkVariable (Some n') (config (self h)) {[ "value" := b64 ]})
       (sent h ++ [r])).
Proof.
  intros Hn Hne Ht fn b64 data r Hans Hparse.
  rewrite run_bind, run_value_setter, Ht.
  set (h1 := mkHeap (mkVariable (name (self h)) (config (self h))
                       (<["value" := PyBytes B]> (_properties (self h)))) (sent h)).
  assert (run _get_payload h1 = (Return data, h1)) as Hpay.
  { rewrite (run_get_payload_named h1 n Hn Hne). cbn [self _properties config h1].
    rewrite lookup_insert_ne by done.
    apply dict_in_false in Ht. rewrite Ht.
    by rewrite lookup_insert_eq. }
  rewrite run_bind, run_create, Hpay. cbn [self config sent h1].
  fold r. rewrite Hans. rewrite run_set_properties.
  assert (data !! "name" = Some (PyStr fn)) as ->.
  { unfold data. rewrite lookup_insert_ne by done. apply lookup_singleton_eq. }
  rewrite Hparse. cbn [self config sent sending h1].
  assert (delete "name" data = {[ "value" := b64 ]}) as ->.
  { unfold data. rewrite delete_insert_ne by done.
    by rewrite delete_singleton_eq, insert_empty. }
  apply run_value_encoded. apply lookup_singleton_eq.
Qed.

Lemma value_round_trip_through_create_witness :
  let data : dict :=
    <["value" := PyStr "aGVsbG8="]>
      {[ "name" := PyStr "projects/p/configs/c/variables/v1" ]} in
  let cfg := stub_config (Return data) in
  let r := Request.make POST "/projects/p/configs/c/variables" (Some data) None in
  run (value_setter (bytes "hello");; @create spec_helpers None;; value)
    (mkHeap (__init__ (Some "v1") cfg) [])
  = (Return (bytes "hello"),
     mkHeap (mkVariable (Some "v1") cfg {[ "value" := PyStr "aGVsbG8=" ]}) [r]).
Proof.
  intros data cfg r.
  exact (@value_round_trip_through_create spec_helpers
           (list_byte_of_string "hello") None
           (mkHeap (__init__ (Some "v1") cfg) []) "v1" "v1"
           eq_refl ltac:(discriminate) eq_refl eq_refl eq_refl).
Defined.

(** ** The state property *)

(** X5.  After a resource is absorbed, [state] is the resource's own
    [state] field, or [VARIABLE_STATE_UNSPECIFIED] when the resource has
    none: a state reported earlier does not survive a response without
    one.  The two setters, whether they succeed or raise, never change
    what [state] returns. *)
Theorem state_follows_last_response `{Helpers} (resource : dict) (h h' : Heap) :
  run (_set_properties resource) h = (Return (), h') →
  run state h'
  = (Return (default (PyStr STATE_UNSPECIFIED) (resource !! "state")), h')
  ∧ (∀ x, (run state (run (text_setter x) h').2).1 = (run state h').1)
  ∧ (∀ x, (run state (run (value_setter x) h').2).1 = (run state h').1).
Proof.
  intros Habs. split; [| split].
  - rewrite run_state. rewrite run_set_properties in Habs.
    destruct (resource !! "name") as [full|].
    + destruct (variable_name_from_full_name full); [|done].
      injection Habs as <-. cbn. by rewrite lookup_delete_ne.
    + by injection Habs as <-.
  - intros x. rewrite run_text_setter.
    destruct (dict_in "value" (_properties (self h'))); [done|].
    rewrite !run_state. cbn. by rewrite lookup_insert_ne.
  - intros x. rewrite run_value_setter.
    destruct (dict_in "text" (_properties (self h'))); [done|].
    rewrite !run_state. cbn. by rewrite lookup_insert_ne.
Qed.

Lemma state_follows_last_response_witness :
  let cfg := stub_config (Raise NotFound) in
  let h := mkHeap (mkVariable (Some "v1") cfg
                     {[ "text" := PyStr "a"; "state" := PyStr "UPDATED" ]}) [] in
  let h' := mkHeap (mkVariable (Some "v1") cfg {[ "text" := PyStr "b" ]}) [] in
  (run state h).1 = Return (PyStr "UPDATED")
  ∧ run (@_set_properties spec_helpers {[ "text" := PyStr "b" ]}) h = (Return (), h')
  ∧ run state h' = (Return (PyStr "VARIABLE_STATE_UNSPECIFIED"), h').
Proof.
  intros cfg h h'. split; [reflexivity | split; [reflexivity|]].
  exact (proj1 (@state_follows_last_response spec_helpers
                  {[ "text" := PyStr "b" ]} h h' eq_refl)).
Defined.

(** ** The factory *)

Lemma from_api_repr_parsed `{Helpers} (resource : dict) (cfg : Config.t) (n : string) :
  variable_name_from_full_name (dict_get "name" resource) = Return n →
  from_api_repr resource cfg
  = Return (mkVariable (Some n) cfg (delete "name" resource)).
Proof.
  intros Hn. unfold from_api_repr. rewrite Hn, run_set_properties.
  unfold dict_get in Hn.
  destruct (resource !! "name") as [full|] eqn:Hname.
  - by rewrite Hn.
  - cbn. by rewrite delete_id.
Qed.

(** X6.  [from_api_repr(resource, config)] parses the resource's [name]
    (or [None] when the key is missing).  If the helper raises, so does the
    factory; otherwise the variable it returns belongs to [config], has the
    parsed name, and holds exactly the fields of the resource other than
    [name]. *)
Theorem from_api_repr_spec `{Helpers} (resource : dict) (cfg : Config.t) :
  (∀ e, variable_name_from_full_name (dict_get "name" resource) = Raise e →
     from_api_repr resource cfg = Raise e)
  ∧ (∀ n, variable_name_from_full_name (dict_get "name" resource) = Return n →
       from_api_repr resource cfg
       = Return (mkVariable (Some n) cfg (delete "name" resource))
       ∧ ∀ k, k ≠ "name" →
           (delete "name" resource : dict) !! k = resource !! k).
Proof.
  split.
  - intros e He. unfold from_api_repr. by rewrite He.
  - intros n Hn. split.
    + by apply from_api_repr_parsed.
    + intros k Hk. by rewrite lookup_delete_ne.
Qed.

Lemma from_api_repr_spec_witness :
  let cfg := stub_config (Raise NotFound) in
  let resource : dict :=
    {[ "name" := PyStr "projects/p/configs/c/variables/v1";
       "text" := PyStr "hello"; "updateTime" := PyStr "2016-04-14T21:21:54.5000Z" ]} in
  @from_api_repr spec_helpers resource cfg
  = Return (mkVariable (Some "v1") cfg
              {[ "text" := PyStr "hello";
                 "updateTime" := PyStr "2016-04-14T21:21:54.5000Z" ]})
  ∧ @from_api_repr spec_helpers {[ "name" := PyStr "organizations/o" ]} cfg
    = Raise (ValueError "Unexpected format of resource").
Proof.
  intros cfg resource. split.
  - exact (proj1 (proj2 (@from_api_repr_spec spec_helpers resource cfg) "v1" eq_refl)).
  - exact (proj1 (@from_api_repr_spec spec_helpers {[ "name" := PyStr "organizations/o" ]} cfg)
             _ eq_refl).
Defined.

(** ** What the remote operations let through *)

Section remote_errors.
Context `{Helpers}.

(** X7.  Each remote operation swallows one exception only.  On a named
    variable whose payload is built, an exception of the connection other
    than [Conflict] leaves [create] as it is, one other than [NotFound]
    leaves [update] and [exists] as it is, and [reload] passes on every
    exception; the object is unchanged in each case. *)
Theorem remote_errors_propagate (c : option Client) (h : Heap) (n : string) (e : exn) :
  name (self h) = Some n → n ≠ "" →
  let p := "/" +:+ Config.full_name (config (self h)) +:+ "/variables/" +:+ n in
  let conn := _connection (client_of (config (self h)) c) (sent h) in
  let gone r := mkHeap (self h) (sent h ++ [r]) in
  (∀ data,
     run _get_payload h = (Return data, h) →
     let r := Request.make POST (Config.path (config (self h)) +:+ "/variables")
                (Some data) None in
     conn r = Raise e → e ≠ Conflict → run (create c) h = (Raise e, gone r))
  ∧ (∀ data,
       run _get_payload h = (Return data, h) →
       let r := Request.make PUT p (Some data) None in
       conn r = Raise e → e ≠ NotFound → run (update c) h = (Raise e, gone r))
  ∧ (let r := Request.make GET p None (Some {[ "fields" := PyStr "name" ]}) in
     conn r = Raise e → e ≠ NotFound → run (exists_ c) h = (Raise e, gone r))
  ∧ (let r := Request.make GET p None None in
     conn r = Raise e → run (reload c) h = (Raise e, gone r)).
Proof.
  intros Hn Hne p conn gone.
  assert (∀ e', e' ≠ Conflict → is_Conflict e' = false) as Hconf
    by (by intros []).
  assert (∀ e', e' ≠ NotFound → is_NotFound e' = false) as Hnf
    by (by intros []).
  split; [| split; [| split]].
  - intros data Hpay r Hans He. rewrite run_create, Hpay. cbn zeta.
    fold r. fold conn. by rewrite Hans, (Hconf e He).
  - intros data Hpay r Hans He.
    rewrite run_update, Hpay, (run_path h n Hn Hne). cbn zeta.
    fold p. fold r. fold conn. by rewrite Hans, (Hnf e He).
  - intros r Hans He. rewrite run_exists, (run_path h n Hn Hne). cbn zeta.
    fold p. fold r. fold conn. by rewrite Hans, (Hnf e He).
  - intros r Hans. rewrite run_reload, (run_path h n Hn Hne). cbn zeta.
    fold p. fold r. fold conn. by rewrite Hans.
Qed.

(** X8.  [create] and [update] build the payload before they touch the
    connection: when [_get_payload] raises, both raise the same exception,
    no request is sent and the object is unchanged. *)
Theorem no_request_without_payload (c : option Client) (h h0 : Heap) (e : exn) :
  run _get_payload h = (Raise e, h0) →
  run (create c) h = (Raise e, h) ∧ run (update c) h = (Raise e, h).
Proof.
  intros Hpay. split.
  - by rewrite run_create, Hpay.
  - by rewrite run_update, Hpay.
Qed.

(** X9.  On a variable whose name is [None] or empty, each of the four
    remote operations raises [ValueError("Missing variable name.")]; no
    request is sent and the object is unchanged. *)
Theorem nameless_sends_nothing (c : option Client) (h : Heap) :
  falsy (name (self h)) = true →
  let missing := ValueError "Missing variable name." in
  run (create c) h = (Raise missing, h)
  ∧ run (update c) h = (Raise missing, h)
  ∧ run (exists_ c) h = (Raise missing, h)
  ∧ run (reload c) h = (Raise missing, h).
Proof.
  intros Hn missing.
  pose proof (run_get_payload_missing_name h Hn) as Hpay.
  pose proof (run_path_missing h Hn) as Hpath.
  split; [| split; [| split]].
  - by rewrite run_create, Hpay.
  - by rewrite run_update, Hpay.
  - by rewrite run_exists, Hpath.
  - by rewrite run_reload, Hpath.
Qed.

End remote_errors.

Lemma remote_errors_propagate_witness :
  let failing e :=
    (run (text_setter (PyStr "hello"))
       (mkHeap (__init__ (Some "v1") (stub_config (Raise e))) [])).2 in
  let data : dict :=
    <["text" := PyStr "hello"]>
      {[ "name" := PyStr "projects/p/configs/c/variables/v1" ]} in
  let p := "/projects/p/configs/c/variables/v1" in
  run (@create spec_helpers None) (failing NotFound)
  = (Raise NotFound,
     mkHeap (self (failing NotFound))
       [Request.make POST "/projects/p/configs/c/variables" (Some data) None])
  ∧ run (@update spec_helpers None) (failing Conflict)
    = (Raise Conflict,
       mkHeap (self (failing Conflict)) [Request.make PUT p (Some data) None])
  ∧ run (exists_ None) (failing (RemoteFailure 503))
    = (Raise (RemoteFailure 503),
       mkHeap (self (failing (RemoteFailure 503)))
         [Request.make GET p None (Some {[ "fields" := PyStr "name" ]})])
  ∧ run (@reload spec_helpers None) (failing (RemoteFailure 401))
    = (Raise (RemoteFailure 401),
       mkHeap (self (failing (RemoteFailure 401))) [Request.make GET p None None]).
Proof.
  intros failing data p. split; [| split; [| split]].
  - apply (proj1 (@remote_errors_propagate spec_helpers None (failing NotFound)
                    "v1" NotFound eq_refl ltac:(discriminate)) data);
      [reflexivity | reflexivity | discriminate].
  - apply (proj1 (proj2 (@remote_errors_propagate spec_helpers None (failing Conflict)
                           "v1" Conflict eq_refl ltac:(discriminate))) data);
      [reflexivity | reflexivity | discriminate].
  - apply (proj1 (proj2 (proj2 (@remote_errors_propagate spec_helpers None
                                  (failing (RemoteFailure 503)) "v1" (RemoteFailure 503)
                                  eq_refl ltac:(discriminate)))));
      [reflexivity | discriminate].
  - apply (proj2 (proj2 (proj2 (@remote_errors_propagate spec_helpers None
                                  (failing (RemoteFailure 401)) "v1" (RemoteFailure 401)
                                  eq_refl ltac:(discriminate))))).
    reflexivity.
Defined.

Lemma no_request_without_payload_witness :
  let h := mkHeap (__init__ (Some "v1") (stub_config (Return ∅))) [] in
  run (@create spec_helpers None) h = (Raise (Error "No text or value set."), h)
  ∧ run (@update spec_helpers None) h = (Raise (Error "No text or value set."), h).
Proof.
  intros h.
  exact (@no_request_without_payload spec_helpers None h h
           (Error "No text or value set.") eq_refl).
Defined.

Lemma nameless_sends_nothing_witness :
  let h := (run (text_setter (PyStr "hello"))
              (mkHeap (__init__ None (stub_config (Return ∅))) [])).2 in
  let missing := ValueError "Missing variable name." in
  run (@create spec_helpers None) h = (Raise missing, h)
  ∧ run (@update spec_helpers None) h = (Raise missing, h)
  ∧ run (exists_ None) h = (Raise missing, h)
  ∧ run (@reload spec_helpers None) h = (Raise missing, h).
Proof.
  intros h. exact (@nameless_sends_nothing spec_helpers None h eq_refl).
Defined.

(** ** Success of update and reload *)

(** X10.  On a named variable: when the connection answers the PUT of
    [update] with a body, [update] absorbs it and returns [True]; when it
    answers the GET of [reload], [reload] ends exactly as
    [_set_properties] on that body does, so the local mapping, unsaved
    changes included, is replaced by the response. *)
Theorem update_and_reload_absorb `{Helpers} (c : option Client) (h : Heap)
    (n : string) (resp : dict) :
  name (self h) = Some n → n ≠ "" →
  let p := "/" +:+ Config.full_name (config (self h)) +:+ "/variables/" +:+ n in
  let conn := _connection (client_of (config (self h)) c) (sent h) in
  (∀ data h',
     run _get_payload h = (Return data, h) →
     let r := Request.make PUT p (Some data) None in
     conn r = Return resp →
     run (_set_properties resp) (mkHeap (self h) (sent h ++ [r])) = (Return (), h') →
     run (update c) h = (Return true, h'))
  ∧ (let r := Request.make GET p None None in
     conn r = Return resp →
     run (reload c) h
     = run (_set_properties resp) (mkHeap (self h) (sent h ++ [r]))).
Proof.
  intros Hn Hne p conn. split.
  - intros data h' Hpay r Hans Habs.
    rewrite run_update, Hpay, (run_path h n Hn Hne). cbn zeta.
    fold p. fold r. fold conn. rewrite Hans. unfold sending. by rewrite Habs.
  - intros r Hans. rewrite run_reload, (run_path h n Hn Hne). cbn zeta.
    fold p. fold r. fold conn. by rewrite Hans.
Qed.

Lemma update_and_reload_absorb_witness :
  let resp : dict :=
    {[ "name" := PyStr "projects/p/configs/c/variables/v1";
       "text" := PyStr "served"; "state" := PyStr "UPDATED" ]} in
  let cfg := stub_config (Return resp) in
  let h := (run (text_setter (PyStr "local"))
              (mkHeap (__init__ (Some "v1") cfg) [])).2 in
  let data : dict :=
    <["text" := PyStr "local"]>
      {[ "name" := PyStr "projects/p/configs/c/variables/v1" ]} in
  let p := "/projects/p/configs/c/variables/v1" in
  let served : dict := {[ "text" := PyStr "served"; "state" := PyStr "UPDATED" ]} in
  run (@update spec_helpers None) h
  = (Return true,
     mkHeap (mkVariable (Some "v1") cfg served) [Request.make PUT p (Some data) None])
  ∧ run (@reload spec_helpers None) h
    = (Return (),
       mkHeap (mkVariable (Some "v1") cfg served) [Request.make GET p None None]).
Proof.
  intros resp cfg h data p served. split.
  - apply (proj1 (@update_and_reload_absorb spec_helpers None h "v1" resp
                    eq_refl ltac:(discriminate)) data);
      reflexivity.
  - rewrite (proj2 (@update_and_reload_absorb spec_helpers None h "v1" resp
                      eq_refl ltac:(discriminate)) eq_refl).
    reflexivity.
Defined.

(** ** A value that is not bytes *)

(** X11.  [_get_payload] encodes whatever sits under [value]; what a
    server response put there is a [str] (or [None]), not bytes.  On a
    named variable without [text] whose [value] is not bytes,
    [_get_payload] raises [TypeError], and so do [create] and [update],
    before any request is sent.  A binary variable that was only loaded
    from the server can thus not be sent back until [value] is set
    again. *)
Theorem value_not_bytes_cannot_be_sent `{Helpers} (c : option Client) (h : Heap)
    (n : string) (x : pyval) :
  name (self h) = Some n → n ≠ "" →
  _properties (self h) !! "text" = None →
  _properties (self h) !! "value" = Some x →
  (∀ b, x ≠ PyBytes b) →
  run _get_payload h = (Raise TypeError, h)
  ∧ run (create c) h = (Raise TypeError, h)
  ∧ run (update c) h = (Raise TypeError, h).
Proof.
  intros Hn Hne Ht Hv Hx.
  assert (run _get_payload h = (Raise TypeError, h)) as Hpay.
  { rewrite (run_get_payload_named h n Hn Hne), Ht, Hv.
    destruct x as [|b|z|s|b]; try done. by destruct (Hx b). }
  split; [done|]. split.
  - by rewrite run_create, Hpay.
  - by rewrite run_update, Hpay.
Qed.

(** A binary variable is reloaded from the server and updated at once. *)
Lemma value_not_bytes_cannot_be_sent_witness :
  let resp : dict :=
    {[ "name" := PyStr "projects/p/configs/c/variables/v1";
       "value" := PyStr "aGVsbG8=" ]} in
  let cfg := stub_config (Return resp) in
  let h := (run (@reload spec_helpers None) (mkHeap (__init__ (Some "v1") cfg) [])).2 in
  run value h = (Return (bytes "hello"), h)
  ∧ run _get_payload h = (Raise TypeError, h)
  ∧ run (@create spec_helpers None) h = (Raise TypeError, h)
  ∧ run (@update spec_helpers None) h = (Raise TypeError, h).
Proof.
  intros resp cfg h. split; [reflexivity|].
  exact (@value_not_bytes_cannot_be_sent spec_helpers None h "v1" (PyStr "aGVsbG8=")
           eq_refl ltac:(discriminate) eq_refl eq_refl ltac:(discriminate)).
Defined.

(** ** What a sequence of operations leaves alone *)

Section frames.
Context `{Helpers}.

Lemma set_properties_keeps_sent (resource : dict) (h : Heap) :
  sent (run (_set_properties resource) h).2 = sent h.
Proof.
  rewrite run_set_properties.
  destruct (resource !! "name") as [full|]; [|done].
  by destruct (variable_name_from_full_name full).
Qed.

(** The heap in which [create] and [update] end after a body came back. *)
Lemma absorbed_heap {A} (resp : dict) (h : Heap) (a : A) :
  (match run (_set_properties resp) h with
   | (Return _, h') => (Return a, h')
   | (Raise e, h') => (Raise e, h')
   end).2 = (run (_set_properties resp) h).2.
Proof. by destruct (run (_set_properties resp) h) as [[[]|e] h']. Qed.

Lemma exists_keeps_self (c : option Client) (h : Heap) :
  self (run (exists_ c) h).2 = self h.
Proof.
  rewrite run_exists.
  destruct (run path h) as [[p|e] h'].
  - cbn zeta. destruct (_connection _ _ _) as [resp|e]; [done|].
    by destruct (is_NotFound e).
  - by destruct (is_NotFound e).
Qed.

(** The two ways an operation can leave the requests: as they were, or
    with one more. *)
Ltac frame_same := split; [by left | done].
Ltac frame_one := split; [right; split; [done | by eexists] | done].

(** One operation: the requests so far stay, at most [requests_of o] are
    added, and the config stays. *)
Lemma after_frame (o : op) (h : Heap) :
  (sent (after h o) = sent h
   ∨ (requests_of o = 1%nat ∧ ∃ r, sent (after h o) = (sent h ++ [r])%list))
  ∧ config (self (after h o)) = config (self h).
Proof.
  unfold after.
  destruct o as [t|b|resource|c|c|c|c]; cbn [perform requests_of];
    rewrite ?run_discard.
  - rewrite run_text_setter.
    destruct (dict_in "value" (_properties (self h))); frame_same.
  - rewrite run_value_setter.
    destruct (dict_in "text" (_properties (self h))); frame_same.
  - split; [left; apply set_properties_keeps_sent | apply set_properties_config].
  - rewrite run_create.
    destruct (run _get_payload h) as [[data|e] h0]; [|frame_same].
    cbn zeta. destruct (_connection _ _ _) as [resp|e].
    + rewrite absorbed_heap, set_properties_keeps_sent, set_properties_config.
      frame_one.
    + destruct (is_Conflict e); frame_one.
  - rewrite run_update.
    destruct (run _get_payload h) as [[data|e] h0]; [|frame_same].
    destruct (run path h) as [[p|e] h1].
    + cbn zeta. destruct (_connection _ _ _) as [resp|e].
      * rewrite absorbed_heap, set_properties_keeps_sent, set_properties_config.
        frame_one.
      * destruct (is_NotFound e); frame_one.
    + destruct (is_NotFound e); frame_same.
  - rewrite run_exists.
    destruct (run path h) as [[p|e] h1].
    + cbn zeta. destruct (_connection _ _ _) as [resp|e].
      * frame_one.
      * destruct (is_NotFound e); frame_one.
    + destruct (is_NotFound e); frame_same.
  - rewrite run_reload.
    destruct (run path h) as [[p|e] h1]; [|frame_same].
    cbn zeta. destruct (_connection _ _ _) as [resp|e].
    + rewrite set_properties_keeps_sent, set_properties_config. frame_one.
    + frame_one.
Qed.

(** X12.  Whatever the operations and however each of them ends, the
    requests sent before stay where they are, in order, and at most one
    request is added per remote operation ([create], [update], [exists],
    [reload]): the setters and [_set_properties] never talk to the
    connection. *)
Theorem requests_are_appended (ops : list op) (h : Heap) :
  ∃ new : list Request.t,
    sent (run_ops ops h) = (sent h ++ new)%list
    ∧ (length new ≤ sum_list (requests_of <$> ops))%nat.
Proof.
  revert h. induction ops as [|o ops IH]; intros h.
  - exists []. split; [by rewrite app_nil_r | done].
  - destruct (IH (after h o)) as (new & Hsent & Hlen).
    change (run_ops (o :: ops) h) with (run_ops ops (after h o)).
    destruct (after_frame o h) as [[Hsame | (Hone & r & Hr)] _].
    + exists new. rewrite Hsent, Hsame. split; [done|]. cbn. lia.
    + exists (r :: new). rewrite Hsent, Hr, <- app_assoc.
      split; [done|]. cbn. rewrite Hone. lia.
Qed.

(** X13.  No sequence of operations changes the config that the variable
    belongs to, and the name changes only where a response is absorbed:
    through the setters and [exists] it stays as it is. *)
Theorem config_and_name_frame (ops : list op) (h : Heap) :
  config (self (run_ops ops h)) = config (self h)
  ∧ (forallb keeps_name ops = true →
     name (self (run_ops ops h)) = name (self h)).
Proof.
  revert h. induction ops as [|o ops IH]; intros h; [done|].
  change (run_ops (o :: ops) h) with (run_ops ops (after h o)).
  destruct (IH (after h o)) as [Hcfg Hname]. split.
  - rewrite Hcfg. apply after_frame.
  - intros [Ho Hops]%andb_prop. rewrite (Hname Hops). clear IH Hcfg Hname Hops.
    unfold after.
    destruct o as [t|b|resource|c|c|c|c]; try discriminate; cbn [perform].
    + rewrite run_text_setter.
      by destruct (dict_in "value" (_properties (self h))).
    + rewrite run_value_setter.
      by destruct (dict_in "text" (_properties (self h))).
    + rewrite run_discard. by rewrite exists_keeps_self.
Qed.

End frames.

Lemma config_and_name_frame_witness :
  let resp : dict :=
    {[ "name" := PyStr "projects/p/configs/c/variables/renamed";
       "text" := PyStr "x" ]} in
  let cfg := stub_config (Return resp) in
  let h := mkHeap (__init__ (Some "v1") cfg) [] in
  let local := [ SetText (PyStr "a"); Exists None; SetValue (bytes "b") ] in
  name (self (@run_ops spec_helpers local h)) = Some "v1"
  ∧ config (self (@run_ops spec_helpers (local ++ [Reload None; Create None]) h)) = cfg
  ∧ name (self (@run_ops spec_helpers (local ++ [Reload None]) h)) = Some "renamed".
Proof.
  intros resp cfg h local. split; [| split].
  - exact (proj2 (@config_and_name_frame spec_helpers local h) eq_refl).
  - exact (proj1 (@config_and_name_frame spec_helpers
                    (local ++ [Reload None; Create None]) h)).
  - reflexivity.
Defined.

(** ** A response whose name cannot be parsed *)

(** X14.  [_set_properties] clears the mapping before it parses the
    resource's name.  When the helper raises on that name, the exception
    goes on to the caller, the mapping is left empty (what it held before
    is lost and nothing of the resource is stored) and the local name is
    kept.  So when the connection answers [reload] or [create] with such a
    body, the operation raises after its request has gone out and the
    local mapping is wiped. *)
Theorem failed_absorb_clears `{Helpers} (c : option Client) (h : Heap) (n : string)
    (resp : dict) (full : pyval) (e : exn) :
  name (self h) = Some n → n ≠ "" →
  resp !! "name" = Some full →
  variable_name_from_full_name full = Raise e →
  let wiped h0 := mkHeap (mkVariable (name (self h0)) (config (self h0)) ∅) (sent h0) in
  let conn := _connection (client_of (config (self h)) c) (sent h) in
  (∀ h0, run (_set_properties resp) h0 = (Raise e, wiped h0))
  ∧ (let r := Request.make GET
                ("/" +:+ Config.full_name (config (self h)) +:+ "/variables/" +:+ n)
                None None in
     conn r = Return resp →
     run (reload c) h = (Raise e, wiped (mkHeap (self h) (sent h ++ [r]))))
  ∧ (∀ data,
       run _get_payload h = (Return data, h) →
       let r := Request.make POST (Config.path (config (self h)) +:+ "/variables")
                  (Some data) None in
       conn r = Return resp →
       run (create c) h = (Raise e, wiped (mkHeap (self h) (sent h ++ [r])))).
Proof.
  intros Hn Hne Hname Hparse wiped conn.
  assert (∀ h0, run (_set_properties resp) h0 = (Raise e, wiped h0)) as Habs.
  { intros h0. by rewrite run_set_properties, Hname, Hparse. }
  split; [exact Habs | split].
  - intros r Hans. rewrite run_reload, (run_path h n Hn Hne). cbn zeta.
    fold r. fold conn. rewrite Hans. apply Habs.
  - intros data Hpay r Hans. rewrite run_create, Hpay. cbn zeta.
    fold r. fold conn. rewrite Hans. by rewrite Habs.
Qed.

Lemma failed_absorb_clears_witness :
  let resp : dict := {[ "name" := PyStr "organizations/o"; "text" := PyStr "new" ]} in
  let cfg := stub_config (Return resp) in
  let h := mkHeap (mkVariable (Some "v1") cfg {[ "text" := PyStr "mine" ]}) [] in
  let e := ValueError "Unexpected format of resource" in
  let p := "/projects/p/configs/c/variables/v1" in
  let data : dict :=
    <["text" := PyStr "mine"]>
      {[ "name" := PyStr "projects/p/configs/c/variables/v1" ]} in
  run (@_set_properties spec_helpers resp) h
  = (Raise e, mkHeap (mkVariable (Some "v1") cfg ∅) [])
  ∧ run (@reload spec_helpers None) h
    = (Raise e, mkHeap (mkVariable (Some "v1") cfg ∅) [Request.make GET p None None])
  ∧ run (@create spec_helpers None) h
    = (Raise e,
       mkHeap (mkVariable (Some "v1") cfg ∅)
         [Request.make POST "/projects/p/configs/c/variables" (Some data) None]).
Proof.
  intros resp cfg h e p data.
  pose proof (@failed_absorb_clears spec_helpers None h "v1" resp
                (PyStr "organizations/o") e eq_refl ltac:(discriminate)
                eq_refl eq_refl) as (Habs & Hreload & Hcreate).
  split; [exact (Habs h) | split].
  - exact (Hreload eq_refl).
  - exact (Hcreate data eq_refl eq_refl).
Defined.

(** ** An explicit client *)

Section explicit_client.
Context `{Helpers}.

Lemma same_but_client_path (h1 h2 : Heap) :
  same_but_client h1 h2 → (run path h1).1 = (run path h2).1.
Proof.
  intros (Hname & _ & _ & Hfull & _).
  destruct (falsy (name (self h1))) eqn:Hn.
  - rewrite (run_path_missing h1 Hn). rewrite Hname in Hn.
    by rewrite (run_path_missing h2 Hn).
  - apply falsy_false in Hn as (n & Hn & Hne).
    rewrite (run_path h1 n Hn Hne). rewrite Hname in Hn.
    rewrite (run_path h2 n Hn Hne). cbn. by rewrite Hfull.
Qed.

Lemma same_but_client_payload (h1 h2 : Heap) :
  same_but_client h1 h2 → (run _get_payload h1).1 = (run _get_payload h2).1.
Proof.
  intros (Hname & Hprops & _ & Hfull & _).
  destruct (falsy (name (self h1))) eqn:Hn.
  - rewrite (run_get_payload_missing_name h1 Hn). rewrite Hname in Hn.
    by rewrite (run_get_payload_missing_name h2 Hn).
  - apply falsy_false in Hn as (n & Hn & Hne).
    rewrite (run_get_payload_named h1 n Hn Hne). rewrite Hname in Hn.
    rewrite (run_get_payload_named h2 n Hn Hne). cbn zeta.
    rewrite Hprops, Hfull.
    destruct (_properties (self h2) !! "text"); [done|].
    destruct (_properties (self h2) !! "value") as [x|]; [|done].
    by destruct (base64.b64encode x).
Qed.

Lemma same_but_client_sending (r : Request.t) (h1 h2 : Heap) :
  same_but_client h1 h2 → same_but_client (sending r h1) (sending r h2).
Proof.
  intros (Hname & Hprops & Hsent & Hfull & Hpath).
  unfold same_but_client, sending. cbn. by rewrite Hsent.
Qed.

Lemma same_but_client_set_properties (resource : dict) (h1 h2 : Heap) :
  same_but_client h1 h2 →
  (run (_set_properties resource) h1).1 = (run (_set_properties resource) h2).1
  ∧ same_but_client (run (_set_properties resource) h1).2
      (run (_set_properties resource) h2).2.
Proof.
  intros (Hname & Hprops & Hsent & Hfull & Hpath).
  rewrite !run_set_properties.
  destruct (resource !! "name") as [full|]; [|done].
  by destruct (variable_name_from_full_name full).
Qed.

Lemma same_but_client_absorbed {A} (resp : dict) (a : A) (h1 h2 : Heap) :
  same_but_client h1 h2 →
  let ending h :=
    match run (_set_properties resp) h with
    | (Return _, h') => (Return a, h')
    | (Raise e, h') => (Raise e, h')
    end in
  (ending h1).1 = (ending h2).1 ∧ same_but_client (ending h1).2 (ending h2).2.
Proof.
  intros Hsame ending. unfold ending.
  destruct (same_but_client_set_properties resp h1 h2 Hsame) as [Hout Hheap].
  destruct (run (_set_properties resp) h1) as [[[]|e1] h1'],
           (run (_set_properties resp) h2) as [[[]|e2] h2'];
    cbn in *; try done. by injection Hout as ->.
Qed.

(** X15.  With an explicit client the config's own client plays no part:
    run from two heaps that differ only in the client bound to the config,
    each of [create], [update], [exists] and [reload] with the same
    explicit client ends the same way (same value or exception) and
    leaves the same name, mapping and requests. *)
Theorem explicit_client_overrides (c : Client) (h1 h2 : Heap) :
  same_but_client h1 h2 →
  ((run (create (Some c)) h1).1 = (run (create (Some c)) h2).1
   ∧ same_but_client (run (create (Some c)) h1).2 (run (create (Some c)) h2).2)
  ∧ ((run (update (Some c)) h1).1 = (run (update (Some c)) h2).1
     ∧ same_but_client (run (update (Some c)) h1).2 (run (update (Some c)) h2).2)
  ∧ ((run (exists_ (Some c)) h1).1 = (run (exists_ (Some c)) h2).1
     ∧ same_but_client (run (exists_ (Some c)) h1).2 (run (exists_ (Some c)) h2).2)
  ∧ ((run (reload (Some c)) h1).1 = (run (reload (Some c)) h2).1
     ∧ same_but_client (run (reload (Some c)) h1).2 (run (reload (Some c)) h2).2).
Proof.
  intros Hsame.
  pose proof (same_but_client_path h1 h2 Hsame) as Hp.
  pose proof (same_but_client_payload h1 h2 Hsame) as Hpay.
  pose proof Hsame as (Hname & Hprops & Hsent & Hfull & Hpath).
  split; [| split; [| split]].
  - rewrite !run_create.
    destruct (run _get_payload h1) as [[data|e1] x1],
             (run _get_payload h2) as [[data2|e2] x2]; cbn in Hpay; try done.
    + injection Hpay as <-. cbn zeta. cbn [client_of]. rewrite Hpath, Hsent.
      set (r := Request.make POST _ _ _).
      destruct (_connection c (sent h2) r) as [resp|e].
      * by apply same_but_client_absorbed, same_but_client_sending.
      * destruct (is_Conflict e); (split; [done | by apply same_but_client_sending]).
    + by injection Hpay as <-.
  - rewrite !run_update.
    destruct (run _get_payload h1) as [[data|e1] x1],
             (run _get_payload h2) as [[data2|e2] x2]; cbn in Hpay; try done.
    + injection Hpay as <-.
      destruct (run path h1) as [[p|e1] y1], (run path h2) as [[p2|e2] y2];
        cbn in Hp; try done.
      * injection Hp as <-. cbn zeta. cbn [client_of]. rewrite Hsent.
        set (r := Request.make PUT _ _ _).
        destruct (_connection c (sent h2) r) as [resp|e].
        -- by apply same_but_client_absorbed, same_but_client_sending.
        -- destruct (is_NotFound e); (split; [done | by apply same_but_client_sending]).
      * injection Hp as <-. by destruct (is_NotFound e1).
    + by injection Hpay as <-.
  - rewrite !run_exists.
    destruct (run path h1) as [[p|e1] y1], (run path h2) as [[p2|e2] y2];
      cbn in Hp; try done.
    + injection Hp as <-. cbn zeta. cbn [client_of]. rewrite Hsent.
      set (r := Request.make GET _ _ _).
      destruct (_connection c (sent h2) r) as [resp|e].
      * split; [done | by apply same_but_client_sending].
      * destruct (is_NotFound e); (split; [done | by apply same_but_client_sending]).
    + injection Hp as <-. by destruct (is_NotFound e1).
  - rewrite !run_reload.
    destruct (run path h1) as [[p|e1] y1], (run path h2) as [[p2|e2] y2];
      cbn in Hp; try done.
    + injection Hp as <-. cbn zeta. cbn [client_of]. rewrite Hsent.
      set (r := Request.make GET _ _ _).
      destruct (_connection c (sent h2) r) as [resp|e].
      * by apply same_but_client_set_properties, same_but_client_sending.
      * split; [done | by apply same_but_client_sending].
    + by injection Hp as <-.
Qed.

End explicit_client.

(** The same variable under a config bound to a failing client and under
    one bound to an answering client, with an explicit third client. *)
Lemma explicit_client_overrides_witness :
  let resp : dict :=
    {[ "name" := PyStr "projects/p/configs/c/variables/v1"; "text" := PyStr "x" ]} in
  let c := stub_connection (Return resp) in
  let start answer :=
    (run (text_setter (PyStr "hello"))
       (mkHeap (__init__ (Some "v1") (stub_config answer)) [])).2 in
  let h1 := start (Raise NotFound) in
  let h2 := start (Return ∅) in
  (run (@create spec_helpers (Some c)) h1).1 = (run (@create spec_helpers (Some c)) h2).1
  ∧ (run (@update spec_helpers (Some c)) h1).1 = (run (@update spec_helpers (Some c)) h2).1
  ∧ (run (exists_ (Some c)) h1).1 = (run (exists_ (Some c)) h2).1
  ∧ (run (@reload spec_helpers (Some c)) h1).1 = (run (@reload spec_helpers (Some c)) h2).1
  ∧ (run (exists_ None) h1).1 = Return false
  ∧ (run (exists_ None) h2).1 = Return true.
Proof.
  intros resp c start h1 h2.
  assert (same_but_client h1 h2) as Hsame by (by repeat split).
  pose proof (@explicit_client_overrides spec_helpers c h1 h2 Hsame)
    as ((Hc & _) & (Hu & _) & (He & _) & (Hr & _)).
  repeat split; assumption || reflexivity.
Defined.

(** ** From the payload back to a variable *)

(** X16.  The payload of a named variable that holds [text] can be parsed
    back: when the helper derives [n'] from the variable's full name,
    [from_api_repr] on the payload returns a variable under the same
    config, named [n'], whose whole mapping is the [text] entry; [state],
    [updateTime] and a [value] held beside [text] are not carried over. *)
Theorem payload_parses_back `{Helpers} (h : Heap) (n n' : string) (t : pyval) :
  name (self h) = Some n → n ≠ "" →
  _properties (self h) !! "text" = Some t →
  variable_name_from_full_name
    (PyStr (Config.full_name (config (self h)) +:+ "/variables/" +:+ n))
  = Return n' →
  ∃ data : dict,
    run _get_payload h = (Return data, h)
    ∧ from_api_repr data (config (self h))
      = Return (mkVariable (Some n') (config (self h)) {[ "text" := t ]}).
Proof.
  intros Hn Hne Ht Hparse.
  pose proof (run_get_payload_named h n Hn Hne) as Hrun.
  cbn zeta in Hrun. rewrite Ht in Hrun.
  eexists. split; [exact Hrun|].
  set (fn := Config.full_name (config (self h)) +:+ "/variables/" +:+ n) in *.
  assert (dict_get "name" (<["text" := t]> {[ "name" := PyStr fn ]} : dict)
          = PyStr fn) as Hget.
  { unfold dict_get. rewrite lookup_insert_ne by done.
    by rewrite lookup_singleton_eq. }
  rewrite (from_api_repr_parsed (<["text" := t]> {[ "name" := PyStr fn ]})
             (config (self h)) n') by (by rewrite Hget).
  rewrite delete_insert_ne by done.
  by rewrite delete_singleton_eq.
Qed.

Lemma payload_parses_back_witness :
  let cfg := stub_config (Raise NotFound) in
  let v := mkVariable (Some "v1") cfg
             {[ "text" := PyStr "hello"; "state" := PyStr "UPDATED";
                "updateTime" := PyStr "2016-04-14T21:21:54.5000Z" ]} in
  ∃ data : dict,
    run _get_payload (mkHeap v []) = (Return data, mkHeap v [])
    ∧ @from_api_repr spec_helpers data cfg
      = Return (mkVariable (Some "v1") cfg {[ "text" := PyStr "hello" ]}).
Proof.
  intros cfg v.
  exact (@payload_parses_back spec_helpers (mkHeap v []) "v1" "v1" (PyStr "hello")
           eq_refl ltac:(discriminate) eq_refl eq_refl).
Defined.
